(** * Verification model of [src/activity.ts] (discord-vscode)

    The module builds the rich-presence payload from the editor state.  We
    embed [activity], [details] and [fileDetails] as pure functions of an
    explicit snapshot of the host (VS Code) state; the awaits of the source
    are sequential and become plain sequencing in a small exception monad,
    since the only effects are host reads, a [TypeError] from reading a
    property of [undefined], an error thrown by the git extension's
    [getAPI(1)], and a rejected [workspace.fs.stat].  Numbers are IEEE
    doubles, kept as their exact rational values with each arithmetic
    result rounded to binary64. *)

From Stdlib Require Import String Ascii List ZArith QArith Qround Lia Lqa.
From Stdlib Require Floats.SpecFloat.
Import ListNotations.
Open Scope string_scope.

(* ================================================================= *)
(** ** JavaScript runtime fragment *)

(** Exceptions the embedded code can raise. *)
Inductive js_error : Type :=
| TypeError
| GitModelNotFound      (* Error('Git model not found') of the git extension's getAPI *)
| StatRejected.

(** Results of (possibly) throwing code. *)
Inductive throws (A : Type) : Type :=
| Ok (a : A)
| Throw (e : js_error).
Arguments Ok {A} a.
Arguments Throw {A} e.

Definition bind {A B : Type} (m : throws A) (k : A -> throws B) : throws B :=
  match m with
  | Ok a => k a
  | Throw e => Throw e
  end.

Notation "'let*' x ':=' c 'in' k" := (bind c (fun x => k))
  (at level 200, x name, c at level 100, k at level 200).

(** [String.prototype.startsWith]-style test used to locate a pattern. *)
Fixpoint starts_with (pat s : string) : bool :=
  match pat, s with
  | EmptyString, _ => true
  | String c p, String d s' => Ascii.eqb c d && starts_with p s'
  | String _ _, EmptyString => false
  end.

(** Split [s] at the first occurrence of [pat]: the text before it and the
    text after it ([indexOf] semantics; the empty pattern matches at 0). *)
Fixpoint split_first (pat s : string) : option (string * string) :=
  if starts_with pat s then Some (EmptyString, substring (String.length pat) (String.length s) s)
  else match s with
       | EmptyString => None
       | String c s' =>
           match split_first pat s' with
           | Some (b, a) => Some (String c b, a)
           | None => None
           end
       end.

(** [s.includes(pat)]. *)
Definition includes (s pat : string) : bool :=
  match split_first pat s with Some _ => true | None => false end.

(** GetSubstitution (ECMA-262) for a string pattern: no capture groups,
    so [$n] and [$<] stay literal; [$$], [$&], [$`] and [$'] are expanded. *)
Fixpoint get_substitution (before matched after r : string) : string :=
  match r with
  | String "$" (String "$" r') => String "$" (get_substitution before matched after r')
  | String "$" (String "&" r') => matched ++ get_substitution before matched after r'
  | String "$" (String "`" r') => before ++ get_substitution before matched after r'
  | String "$" (String "'" r') => after ++ get_substitution before matched after r'
  | String c r' => String c (get_substitution before matched after r')
  | EmptyString => EmptyString
  end.

(** [s.replace(pat, rep)] with a string pattern: only the first occurrence. *)
Definition js_replace (s pat rep : string) : string :=
  match split_first pat s with
  | None => s
  | Some (b, a) => b ++ get_substitution b pat a rep ++ a
  end.

(** [s.split(sep)] for a non-empty separator. *)
Fixpoint split_aux (fuel : nat) (sep s : string) : list string :=
  match fuel with
  | O => [s]
  | S f =>
      match split_first sep s with
      | None => [s]
      | Some (b, a) => b :: split_aux f sep a
      end
  end.

(** [s.split(sep)]: the empty separator splits into single characters. *)
Definition js_split (s sep : string) : list string :=
  match sep with
  | EmptyString => map (fun c => String c EmptyString) (list_ascii_of_string s)
  | _ => split_aux (S (String.length s)) sep s
  end.

(** [s.padEnd(n, pad)]. *)
Fixpoint repeat_pad (k : nat) (pad : string) : string :=
  match k with
  | O => EmptyString
  | S k' => pad ++ repeat_pad k' pad
  end.

Definition pad_end (s : string) (n : nat) (pad : string) : string :=
  if Nat.leb n (String.length s) then s
  else match pad with
       | EmptyString => s
       | _ => s ++ substring 0 (n - String.length s) (repeat_pad (n - String.length s) pad)
       end.

(** Decimal digits of a natural number, as [Number.prototype.toString]. *)
Definition digit (d : Z) : ascii := ascii_of_nat (48 + Z.to_nat d).

Fixpoint digits_aux (fuel : nat) (n : Z) (acc : string) : string :=
  match fuel with
  | O => acc
  | S f =>
      let acc' := String (digit (Z.modulo n 10)) acc in
      if Z.ltb n 10 then acc' else digits_aux f (Z.div n 10) acc'
  end.

Definition Z_to_decimal (n : Z) : string :=
  if Z.ltb n 0 then String "-" (digits_aux (S (Z.to_nat (Z.log2 (Z.opp n)))) (Z.opp n) EmptyString)
  else digits_aux (S (Z.to_nat (Z.log2 n))) n EmptyString.

(** [Object.prototype.toLocaleString] of a plain host object: it calls
    [toString], which for an object without its own yields this text. *)
Definition object_to_string : string := "[object Object]".

(** [Number.prototype.toFixed(2)] of a number whose exact value is [x]
    (|x| < 10^21): the integer [n] for which [n / 100 - x] is closest to
    zero, the larger one on a tie, printed with two fraction digits. *)
Definition to_fixed2 (x : Q) : string :=
  let neg := Z.ltb (Qnum x) 0 in
  let p := Z.abs (Qnum x) in
  let q := Zpos (Qden x) in
  let n := Z.div (200 * p + q) (2 * q) in
  let m := Z_to_decimal n in
  let m := if Z.ltb n 10 then "00" ++ m else if Z.ltb n 100 then "0" ++ m else m in
  let k := String.length m in
  (if neg then "-" else "") ++ substring 0 (k - 2) m ++ "." ++ substring (k - 2) 2 m.

(** IEEE-754 binary64 rounding.  A JS number is a double, kept here as its
    exact value; an arithmetic result [x] becomes [round_double x], the
    double nearest to [x], a tie going to the even significand.  The
    significand [m] has 53 bits: [2^52 <= x / 2^e < 2^53] fixes the exponent
    [e], and [m] rounds [x / 2^e].  This covers the normal range
    [2^-1022 <= |x| <= Number.MAX_VALUE], where every number of this module
    lies (byte counts, and their quotients by 1000 above 1); subnormals and
    the overflow to [Infinity] are not modelled. *)
Definition round_half_even (a b : Z) : Z :=
  let d := Z.div a b in
  match Z.compare (2 * Z.modulo a b) b with
  | Lt => d
  | Gt => d + 1
  | Eq => if Z.even d then d else d + 1
  end%Z.

(** [p / q * 2^-e] as a fraction [a / b] of integers. *)
Definition scale_pow2 (p q e : Z) : Z * Z :=
  if Z.leb 0 e then (p, q * 2 ^ e)%Z else (p * 2 ^ (- e), q)%Z.

(** The exponent [e] with [2^52 <= p / q * 2^-e < 2^53], for [p, q > 0]. *)
Definition binary64_exponent (p q : Z) : Z :=
  let e := (Z.log2 p - Z.log2 q - 52)%Z in
  let '(a, b) := scale_pow2 p q e in
  if Z.ltb a (2 ^ 52 * b) then (e - 1)%Z else e.

Definition round_double (x : Q) : Q :=
  let p := Z.abs (Qnum x) in
  let q := Zpos (Qden x) in
  if Z.eqb p 0 then 0 else
  let e := binary64_exponent p q in
  let '(a, b) := scale_pow2 p q e in
  let m := round_half_even a b in
  let v := if Z.leb 0 e then inject_Z (m * 2 ^ e)%Z else Qmake m (Z.to_pos (2 ^ (- e))%Z) in
  if Z.ltb (Qnum x) 0 then - v else v.

(** [x / y] on numbers. *)
Definition double_div (x y : Q) : Q := round_double (x / y).

(** The number a byte count [n] becomes ([n] itself below 2^53). *)
Definition number_of_N (n : N) : Q := round_double (inject_Z (Z.of_N n)).

(** [Number::toString] of an integral number: its decimal digits. *)
Definition integral_to_string (x : Q) : string := Z_to_decimal (Qfloor x).

(** The size after [j] divisions by 1000 of the byte count [s] as a
    number: the values the loop below steps through. *)
Definition size_after (s : N) (j : nat) : Q :=
  Nat.iter j (fun size => double_div size 1000) (number_of_N s).

(** The same quantities through the Standard Library's specification of
    IEEE-754 binary64 ([SpecFloat], 53-bit precision, exponent bound 1024),
    to cross-check [round_double]: the value of a float, the double of a
    natural number, and the size after [j] divisions by 1000. *)
Definition sf_value (f : SpecFloat.spec_float) : Q :=
  match f with
  | SpecFloat.S754_finite s m e =>
      let v := if Z.leb 0 e then inject_Z (Zpos m * 2 ^ e)%Z
               else Qmake (Zpos m) (Z.to_pos (2 ^ (- e))%Z) in
      if s then - v else v
  | _ => 0
  end.

Definition sf_of_N (n : N) : SpecFloat.spec_float :=
  SpecFloat.binary_normalize 53 1024 (Z.of_N n) 0 false.

Definition sf_size_after (s : N) (j : nat) : SpecFloat.spec_float :=
  Nat.iter j (fun size => SpecFloat.SFdiv 53 1024 size (sf_of_N 1000)) (sf_of_N s).

Definition agrees_with_binary64 (s : N) (j : nat) : bool :=
  Qeq_bool (sf_value (sf_size_after s j)) (size_after s j).

(** The loop [while (size > 1000) { currentDivision++; size /= 1000; }]. *)
Fixpoint divide_while (fuel : nat) (size : Q) (currentDivision : nat) : Q * nat :=
  match fuel with
  | O => (size, currentDivision)
  | S f =>
      if Qle_bool size 1000 then (size, currentDivision)
      else divide_while f (double_div size 1000) (S currentDivision)
  end.

(* ================================================================= *)
(** ** Host (VS Code) state *)

Record Position := { line : Z; character : Z }.
Record Selection := { active : Position }.

Record TextDocument := {
  fileName : string;
  uri : string;
  languageId : string;
  lineCount : Z
}.

Record TextEditor := { document : TextDocument; selection : Selection }.

(** [WorkspaceFolder.name]. *)
Record WorkspaceFolder := { folder_name : string }.

(** The git extension API (src/git.d.ts): [Branch.name], [Remote.fetchUrl],
    [RepositoryState.HEAD] and [.remotes], [RepositoryUIState.selected]. *)
Record Branch := { branch_name : option string }.
Record Remote := { fetchUrl : option string }.
Record RepositoryState := { HEAD : option Branch; remotes : list Remote }.
Record RepositoryUIState := { selected : bool }.
Record Repository := { repo_state : RepositoryState; ui : RepositoryUIState }.
Record GitAPI := { repositories : list Repository }.

(** The configuration keys the module reads ([CONFIG_KEYS]). *)
Inductive CONFIG_KEYS :=
| DetailsIdling | DetailsEditing | DetailsDebugging
| LowerDetailsIdling | LowerDetailsEditing | LowerDetailsDebugging
| LowerDetailsNoWorkspaceFound
| LargeImageIdling | LargeImage | SmallImage.

(** A snapshot of everything the module reads from the host. *)
Record Host := {
  appName : string;                                (* env.appName *)
  activeDebugSession : bool;                       (* debug.activeDebugSession is set *)
  activeTextEditor : option TextEditor;            (* window.activeTextEditor *)
  workspace_name : option string;                  (* workspace.name *)
  getWorkspaceFolder : string -> option WorkspaceFolder;
  asRelativePath : string -> string;
  fs_stat : string -> option N;                    (* workspace.fs.stat(uri).size; None: rejects *)
  gitExtension : option (throws GitAPI);           (* getExtension('vscode.git'): absent, or
                                                      what its exports.getAPI(1) returns or throws *)
  config : CONFIG_KEYS -> string                   (* getConfig()[key] *)
}.

(* ================================================================= *)
(** ** Constants and helpers imported from files not in the repository
       snapshot ([constants.ts], [util.ts], node's [path]) *)

(** [REPLACE_KEYS]: the placeholder tokens. *)
Record REPLACE_KEYS := {
  Empty : string; FileName : string; DirName : string; FullDirName : string;
  Workspace : string; WorkspaceFolder_key : string; WorkspaceAndFolder : string;
  LanguageLowerCase : string; LanguageTitleCase : string; LanguageUpperCase : string;
  TotalLines : string; CurrentLine : string; CurrentColumn : string;
  FileSize : string; AppName : string; GitRepoName : string; GitBranch : string
}.

Record Constants := {
  EMPTY : string;
  FILE_SIZES : list string;
  IDLE_IMAGE_KEY : string;
  DEBUG_IMAGE_KEY : string;
  VSCODE_IMAGE_KEY : string;
  VSCODE_INSIDERS_IMAGE_KEY : string;
  UNKNOWN_GIT_BRANCH : string;
  UNKNOWN_GIT_REPO_NAME : string
}.

(** [resolveFileIcon], [toLower], [toTitle], [toUpper] of util.ts. *)
Record Util := {
  resolveFileIcon : TextDocument -> string;
  toLower : string -> string;
  toTitle : string -> string;
  toUpper : string -> string
}.

(** node's [path.basename], [path.parse(_).dir], [path.sep], and the host
    locale's [Number.prototype.toLocaleString]. *)
Record Runtime := {
  basename : string -> string;
  parse_dir : string -> string;
  sep : string;
  number_toLocaleString : Z -> string
}.

(** The payload ([interface ActivityPayload]); [startTimestamp] is
    [number | null | undefined]: [None] is undefined, [Some None] is null. *)
Module Payload.
Record ActivityPayload := {
  details : option string;
  state : option string;
  startTimestamp : option (option Z);
  largeImageKey : option string;
  largeImageText : option string;
  smallImageKey : option string;
  smallImageText : option string;
  partyId : option string;
  partySize : option Z;
  partyMax : option Z;
  matchSecret : option string;
  joinSecret : option string;
  spectateSecret : option string;
  instance : option bool
}.
End Payload.
Import Payload (ActivityPayload).

(** The default parameter [previous = {}]. *)
Definition empty_payload : ActivityPayload :=
  Payload.Build_ActivityPayload None None None None None None None None None None None None None None.

(** [x ?? d] for [x : number | null | undefined]. *)
Definition nullish_or (x : option (option Z)) (d : Z) : Z :=
  match x with
  | Some (Some v) => v
  | _ => d
  end.

(* ================================================================= *)
(** ** The module *)

Section Activity.

Context (K : REPLACE_KEYS) (C : Constants) (U : Util) (R : Runtime).

(** [FILE_SIZES[currentDivision]] inside a template literal. *)
Definition file_size_unit (currentDivision : nat) : string :=
  match nth_error C.(FILE_SIZES) currentDivision with
  | Some u => u
  | None => "undefined"
  end.

(** The text put for the file-size token (activity.ts 157-171), from the
    byte count [statSize] that [workspace.fs.stat] reports.  The loop gets
    fuel [1 + log2 statSize], more than the divisions it can make. *)
Definition file_size_text (statSize : N) : string :=
  let originalSize := number_of_N statSize in
  let '(size, currentDivision) :=
    if negb (Qle_bool originalSize 1000)
    then divide_while (S (Z.to_nat (Z.log2 (Z.of_N statSize)))) (double_div originalSize 1000) 1
    else (originalSize, 0%nat) in
  (if negb (Qle_bool originalSize 1000) then to_fixed2 size else integral_to_string size)
    ++ file_size_unit currentDivision.

(** [document.toLocaleString()]: [TextDocument] declares no such method, so
    the call reaches [Object.prototype.toLocaleString]. *)
Definition document_toLocaleString (document : TextDocument) : string := object_to_string.

(** The steps of [fileDetails], one per [if (raw.includes(...))] block. *)
Definition total_lines_step (document : TextDocument) (raw : string) : string :=
  if includes raw K.(TotalLines)
  then js_replace raw K.(TotalLines) (document_toLocaleString document)
  else raw.

Definition current_line_step (selection : Selection) (raw : string) : string :=
  if includes raw K.(CurrentLine)
  then js_replace raw K.(CurrentLine)
         (R.(number_toLocaleString) (selection.(active).(line) + 1))
  else raw.

Definition current_column_step (selection : Selection) (raw : string) : string :=
  if includes raw K.(CurrentColumn)
  then js_replace raw K.(CurrentColumn)
         (R.(number_toLocaleString) (selection.(active).(character) + 1))
  else raw.

Definition file_size_step (h : Host) (document : TextDocument) (raw : string) : throws string :=
  if includes raw K.(FileSize) then
    match h.(fs_stat) document.(uri) with
    | None => Throw StatRejected
    | Some size => Ok (js_replace raw K.(FileSize) (file_size_text size))
    end
  else Ok raw.

(** [gitExtension?.exports.getAPI(1)]: [undefined] without the extension;
    otherwise the API, or the error [getAPI] throws (the git extension
    throws [Error('Git model not found')] while it has no git model, e.g.
    with [git.enabled] off). *)
Definition getAPI (gitExtension : option (throws GitAPI)) : throws (option GitAPI) :=
  match gitExtension with
  | None => Ok None
  | Some api => let* g := api in Ok (Some g)
  end.

(** [git?.repositories.length] as a condition. *)
Definition has_repositories (git : option GitAPI) : bool :=
  match git with
  | Some g => negb (Nat.eqb (List.length g.(repositories)) 0)
  | None => false
  end.

(** [git.repositories.find((repo) => repo.ui.selected)]. *)
Definition selected_repository (g : GitAPI) : option Repository :=
  find (fun repo => repo.(ui).(selected)) g.(repositories).

(** [...find(...)?.state.HEAD?.name ?? EMPTY]. *)
Definition selected_branch_name (g : GitAPI) : string :=
  match selected_repository g with
  | Some repo =>
      match repo.(repo_state).(HEAD) with
      | Some b => match b.(branch_name) with Some n => n | None => C.(EMPTY) end
      | None => C.(EMPTY)
      end
  | None => C.(EMPTY)
  end.

(** [...find(...)?.state.remotes[0].fetchUrl?.split('/')[1].replace('.git', '') ?? EMPTY]:
    [remotes[0]] and [split('/')[1]] are read without [?.], and reading a
    property of [undefined] throws. *)
Definition selected_repo_name (g : GitAPI) : throws string :=
  match selected_repository g with
  | None => Ok C.(EMPTY)
  | Some repo =>
      match nth_error repo.(repo_state).(remotes) 0 with
      | None => Throw TypeError
      | Some remote =>
          match remote.(fetchUrl) with
          | None => Ok C.(EMPTY)
          | Some url =>
              match nth_error (js_split url "/") 1 with
              | None => Throw TypeError
              | Some part => Ok (js_replace part ".git" "")
              end
          end
      end
  end.

Definition git_branch_step (git : option GitAPI) (raw : string) : string :=
  if includes raw K.(GitBranch) then
    match git with
    | Some g =>
        if has_repositories git
        then js_replace raw K.(GitBranch) (selected_branch_name g)
        else js_replace raw K.(GitBranch) C.(UNKNOWN_GIT_BRANCH)
    | None => js_replace raw K.(GitBranch) C.(UNKNOWN_GIT_BRANCH)
    end
  else raw.

Definition git_repo_name_step (git : option GitAPI) (raw : string) : throws string :=
  if includes raw K.(GitRepoName) then
    match git with
    | Some g =>
        if has_repositories git
        then let* name := selected_repo_name g in Ok (js_replace raw K.(GitRepoName) name)
        else Ok (js_replace raw K.(GitRepoName) C.(UNKNOWN_GIT_REPO_NAME))
    | None => Ok (js_replace raw K.(GitRepoName) C.(UNKNOWN_GIT_REPO_NAME))
    end
  else Ok raw.

(** [fileDetails(_raw, document, selection)] (activity.ts 139-201). *)
Definition fileDetails (h : Host) (_raw : string) (document : TextDocument)
    (selection : Selection) : throws string :=
  let raw := _raw in
  let* git := getAPI h.(gitExtension) in
  let raw := total_lines_step document raw in
  let raw := current_line_step selection raw in
  let raw := current_column_step selection raw in
  let* raw := file_size_step h document raw in
  let raw := git_branch_step git raw in
  let* raw := git_repo_name_step git raw in
  Ok raw.

(** The part of [details] under [if (window.activeTextEditor)] once [raw]
    holds the editing or debugging template (activity.ts 98-109, 117-133). *)
Definition fill_editor_template (h : Host) (ed : TextEditor) (raw : string) : throws string :=
  let config := h.(config) in
  let document := ed.(document) in
  let path := document.(fileName) in
  let fileName := R.(basename) path in
  let dir := R.(parse_dir) path in
  let split := js_split dir R.(sep) in
  let dirName :=
    match nth_error split (List.length split - 1) with Some d => d | None => "undefined" end in
  let noWorkspaceFound := js_replace (config LowerDetailsNoWorkspaceFound) K.(Empty) C.(EMPTY) in
  let workspaceFolder := h.(getWorkspaceFolder) document.(uri) in
  let workspaceFolderName :=
    match workspaceFolder with Some wf => wf.(folder_name) | None => noWorkspaceFound end in
  let workspaceName :=
    match h.(workspace_name) with Some n => n | None => workspaceFolderName end in
  let workspaceAndFolder :=
    workspaceName ++ (if String.eqb workspaceFolderName C.(EMPTY) then ""
                      else " - " ++ workspaceFolderName) in
  let fileIcon := U.(resolveFileIcon) document in
  let raw :=
    match workspaceFolder with
    | Some wf =>
        let relativePath :=
          removelast (js_split (h.(asRelativePath) path) R.(sep)) in
        js_replace raw K.(FullDirName)
          (wf.(folder_name) ++ R.(sep) ++ String.concat R.(sep) relativePath)
    | None => raw
    end in
  let* raw := fileDetails h raw document ed.(selection) in
  Ok (js_replace (js_replace (js_replace (js_replace (js_replace (js_replace (js_replace
        (js_replace raw
        K.(FileName) fileName)
        K.(DirName) dirName)
        K.(Workspace) workspaceName)
        K.(WorkspaceFolder_key) workspaceFolderName)
        K.(WorkspaceAndFolder) workspaceAndFolder)
        K.(LanguageLowerCase) (U.(toLower) fileIcon))
        K.(LanguageTitleCase) (U.(toTitle) fileIcon))
        K.(LanguageUpperCase) (U.(toUpper) fileIcon)).

(** [details(idling, editing, debugging)] (activity.ts 93-137). *)
Definition details (h : Host) (idling editing debugging : CONFIG_KEYS) : throws string :=
  let config := h.(config) in
  let raw := js_replace (config idling) K.(Empty) C.(EMPTY) in
  match h.(activeTextEditor) with
  | None => Ok raw
  | Some ed =>
      let raw := if h.(activeDebugSession) then config debugging else config editing in
      fill_editor_template h ed raw
  end.

(** [activity(previous)] (activity.ts 37-91); [now] is [Date.now()].  The
    host is one snapshot: line 85 reads [window.activeTextEditor] again
    after the awaits of [details], and the model gives it the editor of the
    snapshot (an editor closed during those awaits, which makes the source
    throw a [TypeError] there, is not modelled). *)
Definition activity (h : Host) (previous : ActivityPayload) (now : Z) : throws ActivityPayload :=
  let config := h.(config) in
  let appName := h.(appName) in
  let defaultSmallImageKey :=
    if h.(activeDebugSession) then C.(DEBUG_IMAGE_KEY)
    else if includes appName "Insiders" then C.(VSCODE_INSIDERS_IMAGE_KEY)
    else C.(VSCODE_IMAGE_KEY) in
  let* d := details h DetailsIdling DetailsEditing DetailsDebugging in
  let* s := details h LowerDetailsIdling LowerDetailsEditing LowerDetailsDebugging in
  let state := {|
    Payload.details := Some d;
    Payload.state := Some s;
    Payload.startTimestamp := Some (Some (nullish_or previous.(Payload.startTimestamp) now));
    Payload.largeImageKey := Some C.(IDLE_IMAGE_KEY);
    Payload.largeImageText := Some (config LargeImageIdling);
    Payload.smallImageKey := Some defaultSmallImageKey;
    Payload.smallImageText := Some (js_replace (config SmallImage) K.(AppName) appName);
    Payload.partyId := None; Payload.partySize := None; Payload.partyMax := None;
    Payload.matchSecret := None; Payload.joinSecret := None;
    Payload.spectateSecret := None; Payload.instance := None |} in
  match h.(activeTextEditor) with
  | None => Ok state
  | Some ed =>
      if String.eqb ed.(document).(languageId) "Log" then Ok state
      else
        let largeImageKey := U.(resolveFileIcon) ed.(document) in
        let largeImageText :=
          pad_end (js_replace (js_replace (js_replace (config LargeImage)
            K.(LanguageLowerCase) (U.(toLower) largeImageKey))
            K.(LanguageTitleCase) (U.(toTitle) largeImageKey))
            K.(LanguageUpperCase) (U.(toUpper) largeImageKey)) 2 C.(EMPTY) in
        let* d := details h DetailsIdling DetailsEditing DetailsDebugging in
        let* s := details h LowerDetailsIdling LowerDetailsEditing LowerDetailsDebugging in
        Ok {|
          Payload.details := Some d;
          Payload.state := Some s;
          Payload.startTimestamp := state.(Payload.startTimestamp);
          Payload.largeImageKey := Some largeImageKey;
          Payload.largeImageText := Some largeImageText;
          Payload.smallImageKey := state.(Payload.smallImageKey);
          Payload.smallImageText := state.(Payload.smallImageText);
          Payload.partyId := state.(Payload.partyId);
          Payload.partySize := state.(Payload.partySize);
          Payload.partyMax := state.(Payload.partyMax);
          Payload.matchSecret := state.(Payload.matchSecret);
          Payload.joinSecret := state.(Payload.joinSecret);
          Payload.spectateSecret := state.(Payload.spectateSecret);
          Payload.instance := state.(Payload.instance) |}
  end.

(** Replacing each token of a list once, in order, each with
    [String.prototype.replace] ([js_replace]). *)
Definition replace_each_once (pairs : list (string * string)) (raw : string) : string :=
  fold_left (fun s p => js_replace s (fst p) (snd p)) pairs raw.

(** The git-branch value of [fileDetails] (activity.ts 175-185). *)
Definition git_branch_value (git : option GitAPI) : string :=
  match git with
  | Some g =>
      if has_repositories git then selected_branch_name g else C.(UNKNOWN_GIT_BRANCH)
  | None => C.(UNKNOWN_GIT_BRANCH)
  end.

(** The git-repo-name value of [fileDetails] (activity.ts 187-198); it
    throws where [selected_repo_name] does. *)
Definition git_repo_name_value (git : option GitAPI) : throws string :=
  match git with
  | Some g =>
      if has_repositories git then selected_repo_name g else Ok C.(UNKNOWN_GIT_REPO_NAME)
  | None => Ok C.(UNKNOWN_GIT_REPO_NAME)
  end.

(** The tokens [fileDetails] scans, each paired with the value it computes,
    in the order of replacement; [size] is the stat result and [name] the
    git-repo-name value. *)
Definition file_details_values (git : option GitAPI) (size : N) (name : string)
    (document : TextDocument) (selection : Selection) : list (string * string) :=
  [(K.(TotalLines), document_toLocaleString document);
   (K.(CurrentLine), R.(number_toLocaleString) (selection.(active).(line) + 1));
   (K.(CurrentColumn), R.(number_toLocaleString) (selection.(active).(character) + 1));
   (K.(FileSize), file_size_text size);
   (K.(GitBranch), git_branch_value git);
   (K.(GitRepoName), name)].

(** The tokens of the editing/debugging template of [details], each paired
    with its value, in the order of replacement (activity.ts 98-133). *)
Definition editor_template_values (h : Host) (ed : TextEditor) (git : option GitAPI)
    (size : N) (name : string) : list (string * string) :=
  let config := h.(config) in
  let document := ed.(document) in
  let path := document.(fileName) in
  let split := js_split (R.(parse_dir) path) R.(sep) in
  let dirName :=
    match nth_error split (List.length split - 1) with Some d => d | None => "undefined" end in
  let noWorkspaceFound := js_replace (config LowerDetailsNoWorkspaceFound) K.(Empty) C.(EMPTY) in
  let workspaceFolder := h.(getWorkspaceFolder) document.(uri) in
  let workspaceFolderName :=
    match workspaceFolder with Some wf => wf.(folder_name) | None => noWorkspaceFound end in
  let workspaceName :=
    match h.(workspace_name) with Some n => n | None => workspaceFolderName end in
  let fileIcon := U.(resolveFileIcon) document in
  match workspaceFolder with
  | Some wf =>
      [(K.(FullDirName), wf.(folder_name) ++ R.(sep) ++
          String.concat R.(sep) (removelast (js_split (h.(asRelativePath) path) R.(sep))))]
  | None => []
  end ++
  file_details_values git size name document ed.(selection) ++
  [(K.(FileName), R.(basename) path);
   (K.(DirName), dirName);
   (K.(Workspace), workspaceName);
   (K.(WorkspaceFolder_key), workspaceFolderName);
   (K.(WorkspaceAndFolder),
      workspaceName ++ (if String.eqb workspaceFolderName C.(EMPTY) then ""
                        else " - " ++ workspaceFolderName));
   (K.(LanguageLowerCase), U.(toLower) fileIcon);
   (K.(LanguageTitleCase), U.(toTitle) fileIcon);
   (K.(LanguageUpperCase), U.(toUpper) fileIcon)].

End Activity.

(* ================================================================= *)
(** ** Concrete instances for evaluation *)

(** Modelled from the spec: [REPLACE_KEYS] of constants.ts, which is not in
    the snapshot; the spec names the tokens (total-lines, current-line, ...,
    empty-value sentinel) but not their spelling, which is taken here as
    the token name in braces. *)
Definition spec_keys : REPLACE_KEYS := {|
  Empty := "{empty}"; FileName := "{file_name}"; DirName := "{dir_name}";
  FullDirName := "{full_dir_name}"; Workspace := "{workspace}";
  WorkspaceFolder_key := "{workspace_folder}"; WorkspaceAndFolder := "{workspace_and_folder}";
  LanguageLowerCase := "{lang}"; LanguageTitleCase := "{Lang}"; LanguageUpperCase := "{LANG}";
  TotalLines := "{total_lines}"; CurrentLine := "{current_line}";
  CurrentColumn := "{current_column}"; FileSize := "{file_size}"; AppName := "{app_name}";
  GitRepoName := "{git_repo_name}"; GitBranch := "{git_branch}" |}.

(** Modelled from the spec: the other constants of constants.ts.  The
    fallback [EMPTY] is the empty string and the git sentinels are fixed
    "unknown" strings (spec 4.1, 4.2); the unit suffixes start at bytes. *)
Definition spec_constants : Constants := {|
  EMPTY := "";
  FILE_SIZES := [" bytes"; "kb"; "mb"; "gb"; "tb"];
  IDLE_IMAGE_KEY := "vscode-big";
  DEBUG_IMAGE_KEY := "debug";
  VSCODE_IMAGE_KEY := "vscode";
  VSCODE_INSIDERS_IMAGE_KEY := "vscode-insiders";
  UNKNOWN_GIT_BRANCH := "Unknown";
  UNKNOWN_GIT_REPO_NAME := "Unknown" |}.

(** A stand-in for util.ts: the icon is the language id, casing unchanged. *)
Definition sample_util : Util := {|
  resolveFileIcon := fun d => d.(languageId);
  toLower := fun s => s; toTitle := fun s => s; toUpper := fun s => s |}.

(** POSIX [path] on simple absolute paths, and a locale that prints small
    integers as plain digits. *)
Definition posix_runtime : Runtime := {|
  basename := fun p => last (js_split p "/") "";
  parse_dir := fun p => String.concat "/" (removelast (js_split p "/"));
  sep := "/";
  number_toLocaleString := Z_to_decimal |}.

Definition sample_config (key : CONFIG_KEYS) : string :=
  match key with
  | DetailsIdling => "Idling"
  | DetailsEditing => "Editing {file_name}"
  | DetailsDebugging => "Debugging {file_name}"
  | LowerDetailsIdling => "{empty}"
  | LowerDetailsEditing => "Workspace: {workspace}"
  | LowerDetailsDebugging => "Debugging: {workspace}"
  | LowerDetailsNoWorkspaceFound => "No workspace."
  | LargeImageIdling => "Idling"
  | LargeImage => "Editing a {LANG} file"
  | SmallImage => "{app_name}"
  end.

Definition sample_document (lang : string) : TextDocument := {|
  fileName := "/home/u/proj/src/main.ts"; uri := "file:///home/u/proj/src/main.ts";
  languageId := lang; lineCount := 42%Z |}.

Definition sample_editor (lang : string) : TextEditor := {|
  document := sample_document lang;
  selection := {| active := {| line := 4%Z; character := 9%Z |} |} |}.

Definition sample_host (cfg : CONFIG_KEYS -> string) (ed : option TextEditor)
    (debugging : bool) (g : option GitAPI) : Host := {|
  appName := "Visual Studio Code";
  activeDebugSession := debugging;
  activeTextEditor := ed;
  workspace_name := Some "proj";
  getWorkspaceFolder := fun _ => Some {| folder_name := "proj" |};
  asRelativePath := fun _ => "src/main.ts";
  fs_stat := fun _ => Some 1500000%N;
  gitExtension := option_map Ok g;
  config := cfg |}.

(** A git extension that lists one repository, not selected in the UI. *)
Definition unselected_git : GitAPI := {|
  repositories := [ {| repo_state := {| HEAD := Some {| branch_name := Some "main" |};
                                       remotes := [ {| fetchUrl := Some "git@github.com:u/proj.git" |} ] |};
                       ui := {| selected := false |} |} ] |}.

(** The host [h] with the configuration [cfg] in place of its own. *)
Definition with_config (h : Host) (cfg : CONFIG_KEYS -> string) : Host := {|
  appName := h.(appName);
  activeDebugSession := h.(activeDebugSession);
  activeTextEditor := h.(activeTextEditor);
  workspace_name := h.(workspace_name);
  getWorkspaceFolder := h.(getWorkspaceFolder);
  asRelativePath := h.(asRelativePath);
  fs_stat := h.(fs_stat);
  gitExtension := h.(gitExtension);
  config := cfg |}.

(** The host [h] with a git extension that has no git model ([git.enabled]
    off): [getAPI(1)] throws. *)
Definition with_git_disabled (h : Host) : Host := {|
  appName := h.(appName);
  activeDebugSession := h.(activeDebugSession);
  activeTextEditor := h.(activeTextEditor);
  workspace_name := h.(workspace_name);
  getWorkspaceFolder := h.(getWorkspaceFolder);
  asRelativePath := h.(asRelativePath);
  fs_stat := h.(fs_stat);
  gitExtension := Some (Throw GitModelNotFound);
  config := h.(config) |}.

(** A git extension whose only repository is selected but has no remote. *)
Definition noremote_git : GitAPI := {|
  repositories := [ {| repo_state := {| HEAD := Some {| branch_name := Some "main" |};
                                       remotes := [] |};
                       ui := {| selected := true |} |} ] |}.

(** [sample_config] with the repository name in the editing title. *)
Definition repo_config (key : CONFIG_KEYS) : string :=
  match key with
  | DetailsEditing => "{git_repo_name}"
  | k => sample_config k
  end.

(** Hosts and runs used to exercise the theorems. *)
Definition idle_host (debugging : bool) : Host := sample_host sample_config None debugging None.

Definition editing_host (debugging : bool) (lang : string) : Host :=
  sample_host sample_config (Some (sample_editor lang)) debugging None.

Definition payload_of (r : throws ActivityPayload) : ActivityPayload :=
  match r with Ok p => p | Throw _ => empty_payload end.

Definition sample_run (h : Host) (now : Z) : throws ActivityPayload :=
  activity spec_keys spec_constants sample_util posix_runtime h empty_payload now.




(** The tokens [details] fills after the full directory name, in the order
    of activity.ts: those of [fileDetails] (lines 143-198), then lines
    125-132. *)
Definition tokens_after_full_dir (K : REPLACE_KEYS) : list string :=
  [K.(TotalLines); K.(CurrentLine); K.(CurrentColumn); K.(FileSize);
   K.(GitBranch); K.(GitRepoName);
   K.(FileName); K.(DirName); K.(Workspace); K.(WorkspaceFolder_key);
   K.(WorkspaceAndFolder);
   K.(LanguageLowerCase); K.(LanguageTitleCase); K.(LanguageUpperCase)].

(** Three repositories: one not selected, then two selected ones. *)
Definition old_repo : Repository := {|
  repo_state := {| HEAD := Some {| branch_name := Some "main" |};
                   remotes := [ {| fetchUrl := Some "git@github.com:u/old.git" |} ] |};
  ui := {| selected := false |} |}.

Definition feature_repo : Repository := {|
  repo_state := {| HEAD := Some {| branch_name := Some "feature" |};
                   remotes := [ {| fetchUrl := Some "git@github.com:u/proj.git" |} ] |};
  ui := {| selected := true |} |}.

Definition dev_repo : Repository := {|
  repo_state := {| HEAD := Some {| branch_name := Some "dev" |};
                   remotes := [ {| fetchUrl := Some "git@github.com:u/dev.git" |} ] |};
  ui := {| selected := true |} |}.

Definition multi_git : GitAPI := {| repositories := [old_repo; feature_repo; dev_repo] |}.

(** A git extension whose selected repository is cloned over HTTPS. *)
Definition https_repo : Repository := {|
  repo_state := {| HEAD := Some {| branch_name := Some "main" |};
                   remotes := [ {| fetchUrl := Some "https://github.com/u/proj.git" |} ] |};
  ui := {| selected := true |} |}.

Definition https_git : GitAPI := {| repositories := [https_repo] |}.

(** An editor on a file outside every workspace folder, with no workspace
    open. *)
Definition folderless_host : Host := {|
  appName := "Visual Studio Code";
  activeDebugSession := false;
  activeTextEditor := Some (sample_editor "typescript");
  workspace_name := None;
  getWorkspaceFolder := fun _ => None;
  asRelativePath := fun p => p;
  fs_stat := fun _ => Some 1500000%N;
  gitExtension := None;
  config := sample_config |}.

(* ================================================================= *)
(** ** Properties of the JavaScript string fragment *)

Open Scope nat_scope.
Open Scope string_scope.

Lemma string_length_append (s t : string) :
  String.length (s ++ t) = String.length s + String.length t.
Proof. induction s as [|c s IH]; simpl; [reflexivity | now rewrite IH]. Qed.


Lemma string_app_assoc (s t u : string) : s ++ t ++ u = (s ++ t) ++ u.
Proof. induction s as [|c s IH]; simpl; [reflexivity | now rewrite IH]. Qed.

Lemma substring_0_whole (r : string) (m : nat) :
  String.length r <= m -> substring 0 m r = r.
Proof.
  revert m; induction r as [|c r IH]; intros m Hm; destruct m; simpl in *;
    try reflexivity; try lia.
  rewrite IH by lia; reflexivity.
Qed.

Lemma substring_after_prefix (p r : string) (m : nat) :
  String.length r <= m -> substring (String.length p) m (p ++ r) = r.
Proof.
  induction p as [|c p IH]; intros Hm; simpl.
  - now apply substring_0_whole.
  - now apply IH.
Qed.

Lemma starts_with_spec (pat s : string) :
  starts_with pat s = true <-> exists r, s = pat ++ r.
Proof.
  revert s; induction pat as [|c p IH]; intros s; simpl.
  - split; [intros _; now exists s | reflexivity].
  - destruct s as [|d s]; split.
    + discriminate.
    + intros [r Hr]; discriminate.
    + intros H. apply andb_prop in H as [Hc Hp].
      apply Ascii.eqb_eq in Hc; subst d.
      apply IH in Hp as [r Hr]; subst s; now exists r.
    + intros [r Hr]; injection Hr as -> Hs.
      rewrite Ascii.eqb_refl; simpl; apply IH; now exists r.
Qed.

Lemma split_first_unfold (pat s : string) :
  split_first pat s =
  if starts_with pat s
  then Some (EmptyString, substring (String.length pat) (String.length s) s)
  else match s with
       | EmptyString => None
       | String c s' =>
           match split_first pat s' with
           | Some (b, a) => Some (String c b, a)
           | None => None
           end
       end.
Proof. destruct s; reflexivity. Qed.

(** [split_first] finds the leftmost occurrence. *)
Lemma split_first_some (pat s b a : string) :
  split_first pat s = Some (b, a) ->
  s = b ++ pat ++ a /\
  (forall b' a', s = b' ++ pat ++ a' -> String.length b <= String.length b').
Proof.
  revert b a; induction s as [|c s IH]; intros b a H; rewrite split_first_unfold in H.
  - destruct (starts_with pat "") eqn:Hs; [|discriminate].
    injection H as <- <-.
    apply starts_with_spec in Hs as [r Hr].
    destruct pat; [|discriminate]; destruct r; [|discriminate].
    split; [reflexivity | intros; simpl; lia].
  - destruct (starts_with pat (String c s)) eqn:Hs.
    + apply starts_with_spec in Hs as [r Hr].
      rewrite Hr in H |- *.
      rewrite substring_after_prefix in H by (rewrite string_length_append; lia).
      injection H as <- <-.
      split; [reflexivity | intros; simpl; lia].
    + destruct (split_first pat s) as [[b0 a0]|] eqn:Hrec; [|discriminate].
      injection H as <- <-.
      destruct (IH b0 a0 eq_refl) as [Heq Hmin]; subst s.
      split; [reflexivity|].
      intros b' a' Hdec. destruct b' as [|c' b'].
      * exfalso. simpl in Hdec.
        assert (starts_with pat (String c (b0 ++ pat ++ a0)) = true) as Hc
          by (apply starts_with_spec; now exists a').
        congruence.
      * injection Hdec as -> Hdec. simpl. apply le_n_S. now apply (Hmin b' a').
Qed.

Lemma split_first_none (pat s : string) :
  split_first pat s = None -> forall b a, s <> b ++ pat ++ a.
Proof.
  induction s as [|c s IH]; intros H b a Hs; rewrite split_first_unfold in H.
  - destruct (starts_with pat "") eqn:Hw; [discriminate|].
    destruct b; [|discriminate]; simpl in Hs.
    assert (starts_with pat "" = true) by (apply starts_with_spec; now exists a).
    congruence.
  - destruct (starts_with pat (String c s)) eqn:Hw; [discriminate|].
    destruct (split_first pat s) as [[b0 a0]|]; [discriminate|].
    destruct b as [|c' b].
    + assert (starts_with pat (String c s) = true) by (apply starts_with_spec; now exists a).
      congruence.
    + injection Hs as _ Hs. exact (IH eq_refl b a Hs).
Qed.

Lemma includes_dollar_cons (c : ascii) (v : string) :
  includes (String c v) "$" = false -> c <> "$"%char /\ includes v "$" = false.
Proof.
  unfold includes; rewrite split_first_unfold; cbn [starts_with].
  destruct (Ascii.eqb "$" c) eqn:Hc; simpl; [discriminate|].
  intros H; split.
  - intros ->; discriminate.
  - destruct (split_first "$" v) as [[]|]; [discriminate | reflexivity].
Qed.

(** A replacement text with no [$] is inserted verbatim. *)
Lemma get_substitution_no_dollar (before matched after v : string) :
  includes v "$" = false -> get_substitution before matched after v = v.
Proof.
  induction v as [|c v IH]; intros H; [reflexivity|].
  apply includes_dollar_cons in H as [Hne H].
  specialize (IH H).
  destruct v as [|c2 v];
    destruct c as [[] [] [] [] [] [] [] []];
    solve [ exfalso; apply Hne; reflexivity
          | simpl; reflexivity
          | change (get_substitution before matched after (String c2 v)) with
              (get_substitution before matched after (String c2 v)) in IH;
            simpl in IH |- *; rewrite IH; reflexivity ].
Qed.

Lemma js_replace_absent (s pat v : string) :
  includes s pat = false -> js_replace s pat v = s.
Proof.
  unfold includes, js_replace; destruct (split_first pat s) as [[]|]; congruence.
Qed.

(* ================================================================= *)
(** ** The substitution engine ([fileDetails]) *)

(** Replacing a token that does not occur is the identity. *)
Ltac absent_tokens :=
  repeat match goal with
  | H : includes ?s ?t = false |- context [js_replace ?s ?t ?v] =>
      rewrite (js_replace_absent s t v H)
  end.

Section FileDetails.

Context (K : REPLACE_KEYS) (C : Constants) (R : Runtime).

(** C5 (counterexample): a token that occurs twice is replaced only at its
    first occurrence; the second [{current_line}] survives. *)
Lemma fileDetails_repeated_token_counterexample :
  fileDetails spec_keys spec_constants posix_runtime
    (sample_host sample_config None false None)
    "{current_line} {current_line}" (sample_document "typescript")
    (sample_editor "typescript").(selection)
  = Ok "5 {current_line}"
  /\ includes "5 {current_line}" spec_keys.(CurrentLine) = true.
Proof. split; vm_compute; reflexivity. Qed.

(** C9 (counterexample): [fileDetails] calls [getAPI(1)] before it looks
    at the template, so a git extension without a git model makes it throw
    even on a template with no token. *)
Lemma fileDetails_git_error_counterexample :
  fileDetails spec_keys spec_constants posix_runtime (with_git_disabled (idle_host false))
    "Hello world" (sample_document "typescript") (sample_editor "typescript").(selection)
  = Throw GitModelNotFound.
Proof. vm_compute; reflexivity. Qed.

(** C9 (amended): a template holding none of the tokens [fileDetails]
    scans comes back unchanged when the git extension is absent or its
    [getAPI(1)] returns; an error thrown by [getAPI(1)] propagates. *)
Theorem fileDetails_identity_without_tokens (h : Host) (raw : string)
    (document : TextDocument) (selection : Selection)
    (H1 : includes raw K.(TotalLines) = false)
    (H2 : includes raw K.(CurrentLine) = false)
    (H3 : includes raw K.(CurrentColumn) = false)
    (H4 : includes raw K.(FileSize) = false)
    (H5 : includes raw K.(GitBranch) = false)
    (H6 : includes raw K.(GitRepoName) = false) :
  (forall git, getAPI h.(gitExtension) = Ok git ->
     fileDetails K C R h raw document selection = Ok raw) /\
  (forall e, getAPI h.(gitExtension) = Throw e ->
     fileDetails K C R h raw document selection = Throw e).
Proof.
  unfold fileDetails, total_lines_step, current_line_step, current_column_step,
    file_size_step, git_branch_step, git_repo_name_step.
  split; [intros git Hg | intros e He]; [rewrite Hg | rewrite He; reflexivity].
  simpl; rewrite H1, H2, H3, H4; simpl; rewrite H5, H6; reflexivity.
Qed.

(** C3 (counterexample): the git extension lists a repository but none is
    selected; both git tokens then become [EMPTY] (here the empty string),
    not the "Unknown" sentinels. *)
Lemma git_tokens_unselected_counterexample :
  selected_repository unselected_git = None
  /\ fileDetails spec_keys spec_constants posix_runtime
       (sample_host sample_config None false (Some unselected_git))
       "{git_branch}|{git_repo_name}" (sample_document "typescript")
       (sample_editor "typescript").(selection)
     = Ok "|"
  /\ spec_constants.(UNKNOWN_GIT_BRANCH) <> ""
  /\ spec_constants.(UNKNOWN_GIT_REPO_NAME) <> "".
Proof. repeat split; vm_compute; try reflexivity; discriminate. Qed.

(** C3 (amended): with no git extension, or one that lists no repository,
    the git-branch and git-repo-name tokens are replaced by their "unknown"
    sentinels; when repositories are listed but none is selected, they are
    replaced by the empty fallback [EMPTY]. *)
Theorem git_tokens_fallbacks (git : option GitAPI) (raw : string) :
  ((git = None \/ exists g, git = Some g /\ g.(repositories) = []) ->
     git_branch_step K C git raw = js_replace raw K.(GitBranch) C.(UNKNOWN_GIT_BRANCH) /\
     git_repo_name_step K C git raw
       = Ok (js_replace raw K.(GitRepoName) C.(UNKNOWN_GIT_REPO_NAME))) /\
  (forall g, git = Some g -> g.(repositories) <> [] -> selected_repository g = None ->
     git_branch_step K C git raw = js_replace raw K.(GitBranch) C.(EMPTY) /\
     git_repo_name_step K C git raw = Ok (js_replace raw K.(GitRepoName) C.(EMPTY))).
Proof.
  unfold git_branch_step, git_repo_name_step.
  split.
  - intros [-> | [g [-> Hr]]].
    + destruct (includes raw K.(GitBranch)) eqn:Hb, (includes raw K.(GitRepoName)) eqn:Hn;
        absent_tokens; split; reflexivity.
    + unfold has_repositories; rewrite Hr; simpl.
      destruct (includes raw K.(GitBranch)) eqn:Hb, (includes raw K.(GitRepoName)) eqn:Hn;
        absent_tokens; split; reflexivity.
  - intros g -> Hr Hsel.
    assert (has_repositories (Some g) = true) as Hh.
    { unfold has_repositories; destruct (repositories g); [congruence | reflexivity]. }
    unfold selected_branch_name, selected_repo_name; rewrite Hh, Hsel; simpl.
    destruct (includes raw K.(GitBranch)) eqn:Hb, (includes raw K.(GitRepoName)) eqn:Hn;
      absent_tokens; split; reflexivity.
Qed.

End FileDetails.

(* ================================================================= *)
(** ** The activity assembler *)

Section Assembler.

Context (K : REPLACE_KEYS) (C : Constants) (U : Util) (R : Runtime).

Lemma details_with_editor (h : Host) (ed : TextEditor) (idling editing debugging : CONFIG_KEYS) :
  h.(activeTextEditor) = Some ed ->
  details K C U R h idling editing debugging
  = fill_editor_template K C U R h ed
      (if h.(activeDebugSession) then h.(config) debugging else h.(config) editing).
Proof. intros Hed; unfold details; rewrite Hed; reflexivity. Qed.

(** What every successful run of [activity] returns. *)
Lemma activity_run (h : Host) (previous p : ActivityPayload) (now : Z) :
  activity K C U R h previous now = Ok p ->
  exists d s,
    details K C U R h DetailsIdling DetailsEditing DetailsDebugging = Ok d /\
    details K C U R h LowerDetailsIdling LowerDetailsEditing LowerDetailsDebugging = Ok s /\
    p.(Payload.details) = Some d /\ p.(Payload.state) = Some s /\
    p.(Payload.startTimestamp)
      = Some (Some (nullish_or previous.(Payload.startTimestamp) now)) /\
    ((h.(activeTextEditor) = None \/
      exists ed, h.(activeTextEditor) = Some ed /\ ed.(document).(languageId) = "Log") ->
     p.(Payload.largeImageKey) = Some C.(IDLE_IMAGE_KEY) /\
     p.(Payload.largeImageText) = Some (h.(config) LargeImageIdling)).
Proof.
  unfold activity.
  destruct (details K C U R h DetailsIdling DetailsEditing DetailsDebugging) as [d|e] eqn:E1;
    simpl; [|discriminate].
  destruct (details K C U R h LowerDetailsIdling LowerDetailsEditing LowerDetailsDebugging)
    as [s|e] eqn:E2; simpl; [|discriminate].
  destruct (activeTextEditor h) as [ed|] eqn:Hed.
  - destruct (String.eqb (languageId (document ed)) "Log") eqn:Hlog.
    + intros H; injection H as <-.
      exists d, s; repeat split; reflexivity.
    + simpl; intros H; injection H as <-.
      exists d, s; do 5 (split; [reflexivity|]).
      intros [Hn | [ed' [Hs Hl]]]; [discriminate|].
      injection Hs as <-. apply String.eqb_eq in Hl; congruence.
  - intros H; injection H as <-.
    exists d, s; repeat split; reflexivity.
Qed.

(** C1: the returned [startTimestamp] is the previous payload's when that
    one is a number (neither undefined nor null), and [Date.now()] of the
    call otherwise; a call that is handed the payload of a previous call
    returns the same [startTimestamp] again, so it never regresses. *)
Theorem activity_startTimestamp_carried (h : Host) (previous p : ActivityPayload) (now : Z)
    (Hrun : activity K C U R h previous now = Ok p) :
  p.(Payload.startTimestamp)
    = Some (Some (match previous.(Payload.startTimestamp) with
                  | Some (Some t) => t
                  | _ => now
                  end)) /\
  (forall h' now' p', activity K C U R h' p now' = Ok p' ->
     p'.(Payload.startTimestamp) = p.(Payload.startTimestamp)).
Proof.
  destruct (activity_run h previous p now Hrun) as (d & s & _ & _ & _ & _ & Hts & _).
  split; [exact Hts|].
  intros h' now' p' Hrun'.
  destruct (activity_run h' p p' now' Hrun') as (d' & s' & _ & _ & _ & _ & Hts' & _).
  rewrite Hts', Hts; reflexivity.
Qed.

(** C7: with no active editor the title and subtitle are the idle
    templates (with the empty-value token removed), whatever the debug
    session state. *)
Theorem activity_idle_templates (h : Host) (previous : ActivityPayload) (now : Z)
    (Hnone : h.(activeTextEditor) = None) :
  exists p, activity K C U R h previous now = Ok p /\
    p.(Payload.details) = Some (js_replace (h.(config) DetailsIdling) K.(Empty) C.(EMPTY)) /\
    p.(Payload.state) = Some (js_replace (h.(config) LowerDetailsIdling) K.(Empty) C.(EMPTY)).
Proof.
  unfold activity, details; rewrite Hnone; simpl.
  eexists; split; [reflexivity | split; reflexivity].
Qed.

(** C10: for a document whose language id is ["Log"], [activity] returns
    the first composed payload: the large image key and text are the idle
    ones, while title and subtitle already come from the editing or
    debugging templates filled for the active editor. *)
Theorem activity_log_document (h : Host) (ed : TextEditor) (previous p : ActivityPayload)
    (now : Z)
    (Hed : h.(activeTextEditor) = Some ed)
    (Hlog : ed.(document).(languageId) = "Log")
    (Hrun : activity K C U R h previous now = Ok p) :
  p.(Payload.largeImageKey) = Some C.(IDLE_IMAGE_KEY) /\
  p.(Payload.largeImageText) = Some (h.(config) LargeImageIdling) /\
  exists d s,
    fill_editor_template K C U R h ed
      (if h.(activeDebugSession) then h.(config) DetailsDebugging
       else h.(config) DetailsEditing) = Ok d /\
    fill_editor_template K C U R h ed
      (if h.(activeDebugSession) then h.(config) LowerDetailsDebugging
       else h.(config) LowerDetailsEditing) = Ok s /\
    p.(Payload.details) = Some d /\ p.(Payload.state) = Some s.
Proof.
  destruct (activity_run h previous p now Hrun) as (d & s & E1 & E2 & Hd & Hs & _ & Himg).
  destruct (Himg (or_intror (ex_intro _ ed (conj Hed Hlog)))) as [Hk Ht].
  split; [exact Hk|]; split; [exact Ht|].
  exists d, s.
  rewrite (details_with_editor h ed) in E1, E2 by exact Hed.
  repeat split; assumption.
Qed.

(** [fill_editor_template] reads the configuration only for the
    no-workspace text. *)
Lemma fill_with_config (h : Host) (cfg : CONFIG_KEYS -> string) (ed : TextEditor) (raw : string) :
  cfg LowerDetailsNoWorkspaceFound = h.(config) LowerDetailsNoWorkspaceFound ->
  fill_editor_template K C U R (with_config h cfg) ed raw = fill_editor_template K C U R h ed raw.
Proof. intros Hw; unfold fill_editor_template; cbn [config with_config]; rewrite Hw; reflexivity. Qed.

(** C8: with an active editor and a debug session, title and subtitle are
    the debugging templates filled for the editor, and changing the editing
    templates does not change the payload. *)
Theorem activity_debugging_templates (h : Host) (ed : TextEditor) (previous p : ActivityPayload)
    (now : Z)
    (Hed : h.(activeTextEditor) = Some ed)
    (Hdbg : h.(activeDebugSession) = true)
    (Hrun : activity K C U R h previous now = Ok p) :
  (exists d s,
    fill_editor_template K C U R h ed (h.(config) DetailsDebugging) = Ok d /\
    fill_editor_template K C U R h ed (h.(config) LowerDetailsDebugging) = Ok s /\
    p.(Payload.details) = Some d /\ p.(Payload.state) = Some s) /\
  (forall cfg : CONFIG_KEYS -> string,
     (forall k, k <> DetailsEditing -> k <> LowerDetailsEditing -> cfg k = h.(config) k) ->
     activity K C U R (with_config h cfg) previous now = Ok p).
Proof.
  split.
  - destruct (activity_run h previous p now Hrun) as (d & s & E1 & E2 & Hd & Hs & _).
    rewrite (details_with_editor h ed), Hdbg in E1, E2 by exact Hed.
    exists d, s; repeat split; assumption.
  - intros cfg Hcfg.
    assert (forall i e g, e <> g -> g <> DetailsEditing -> g <> LowerDetailsEditing ->
              details K C U R (with_config h cfg) i e g = details K C U R h i e g) as Hdet.
    { intros i e g _ Hg1 Hg2.
      rewrite (details_with_editor h ed) by exact Hed.
      rewrite (details_with_editor (with_config h cfg) ed) by exact Hed.
      cbn [activeDebugSession config with_config]; rewrite Hdbg.
      rewrite fill_with_config by (apply Hcfg; discriminate).
      rewrite Hcfg by assumption; reflexivity. }
    rewrite <- Hrun; unfold activity.
    rewrite !Hdet by discriminate.
    cbn [appName activeDebugSession activeTextEditor config with_config].
    rewrite (Hcfg LargeImageIdling), (Hcfg SmallImage), (Hcfg LargeImage) by discriminate.
    reflexivity.
Qed.

End Assembler.

(* ================================================================= *)
(** ** File-size formatting *)

Section FileSize.

Context (C : Constants).

Open Scope Z_scope.

Lemma round_half_even_bounds (a b : Z) :
  0 < b -> a / b <= round_half_even a b <= a / b + 1.
Proof.
  intros Hb; unfold round_half_even.
  destruct (Z.compare _ _); try destruct (Z.even _); lia.
Qed.

Lemma round_half_even_1 (a : Z) : round_half_even a 1 = a.
Proof. unfold round_half_even; rewrite Z.div_1_r, Z.mod_1_r; reflexivity. Qed.

(** Below the exponent [log2 p - log2 q - 52], the scaled fraction is at
    least [2^51]. *)
Lemma scale_pow2_large (p q e : Z) :
  0 < p -> 0 < q -> e <= Z.log2 p - Z.log2 q - 52 ->
  let '(a, b) := scale_pow2 p q e in 0 < b /\ 2 ^ 51 * b <= a.
Proof.
  intros Hp Hq He.
  destruct (Z.log2_spec p Hp) as [Hp1 _].
  destruct (Z.log2_spec q Hq) as [_ Hq2].
  pose proof (Z.log2_nonneg p); pose proof (Z.log2_nonneg q).
  unfold scale_pow2; destruct (Z.leb_spec 0 e) as [He0 | He0].
  - assert (Hpe : 2 ^ e <= 2 ^ (Z.log2 p - Z.log2 q - 52))
      by (apply Z.pow_le_mono_r; lia).
    assert (Hsplit : 2 ^ 51 * 2 ^ Z.succ (Z.log2 q) * 2 ^ (Z.log2 p - Z.log2 q - 52)
                     = 2 ^ Z.log2 p).
    { rewrite <- !Z.pow_add_r by lia; f_equal; lia. }
    assert (0 < 2 ^ e) by (apply Z.pow_pos_nonneg; lia).
    split; [nia|].
    assert (q * 2 ^ e <= 2 ^ Z.succ (Z.log2 q) * 2 ^ (Z.log2 p - Z.log2 q - 52)) by nia.
    nia.
  - set (t := Z.max 0 (Z.log2 q + 52 - Z.log2 p)).
    assert (Ht : 2 ^ t <= 2 ^ (- e)) by (apply Z.pow_le_mono_r; lia).
    assert (Hlow : 2 ^ (Z.log2 q + 52) <= 2 ^ Z.log2 p * 2 ^ t).
    { rewrite <- Z.pow_add_r by lia. apply Z.pow_le_mono_r; lia. }
    assert (Hsplit : 2 ^ 51 * 2 ^ Z.succ (Z.log2 q) = 2 ^ (Z.log2 q + 52)).
    { rewrite <- Z.pow_add_r by lia; f_equal; lia. }
    assert (0 < 2 ^ t) by (apply Z.pow_pos_nonneg; lia).
    split; [exact Hq|].
    assert (2 ^ Z.log2 p * 2 ^ t <= p * 2 ^ (- e)) by nia.
    nia.
Qed.

Lemma binary64_exponent_le (p q : Z) :
  binary64_exponent p q <= Z.log2 p - Z.log2 q - 52.
Proof.
  unfold binary64_exponent.
  destruct (scale_pow2 p q (Z.log2 p - Z.log2 q - 52)) as [a b].
  destruct (Z.ltb a (2 ^ 52 * b)); lia.
Qed.

Close Scope Z_scope.

Lemma digits_aux_length_mono (f : nat) (n : Z) (acc : string) :
  String.length acc <= String.length (digits_aux f n acc).
Proof.
  revert n acc; induction f as [|f IH]; intros n acc; simpl; [lia|].
  destruct (Z.ltb n 10); simpl; [lia|].
  specialize (IH (Z.div n 10) (String (digit (Z.modulo n 10)) acc)); simpl in IH; lia.
Qed.

Lemma digits_aux_S (f : nat) (n : Z) (acc : string) :
  digits_aux (S f) n acc
  = if Z.ltb n 10 then String (digit (Z.modulo n 10)) acc
    else digits_aux f (Z.div n 10) (String (digit (Z.modulo n 10)) acc).
Proof. reflexivity. Qed.

Lemma digits_aux_length_step (f : nat) (n : Z) (acc : string) :
  S (String.length acc) <= String.length (digits_aux (S f) n acc).
Proof.
  rewrite digits_aux_S; destruct (Z.ltb n 10); [simpl; lia|].
  pose proof (digits_aux_length_mono f (Z.div n 10) (String (digit (Z.modulo n 10)) acc)).
  simpl in *; lia.
Qed.

(** The digits of a number have at least one character, and at least two
    from 10 on. *)
Lemma Z_to_decimal_length (n : Z) :
  1 <= String.length (Z_to_decimal n) /\
  ((10 <= n)%Z -> 2 <= String.length (Z_to_decimal n)).
Proof.
  unfold Z_to_decimal.
  destruct (Z.ltb_spec n 0) as [Hneg | Hpos]; [simpl; split; lia|].
  split; [apply (digits_aux_length_step _ n EmptyString)|].
  intros H10.
  assert (Z.log2 8 <= Z.log2 n)%Z by (apply Z.log2_le_mono; lia).
  change (Z.log2 8) with 3%Z in *.
  destruct (Z.to_nat (Z.log2 n)) as [|f] eqn:Hf; [lia|].
  rewrite digits_aux_S.
  destruct (Z.ltb_spec n 10); [lia|].
  pose proof (digits_aux_length_step f (Z.div n 10) (String (digit (Z.modulo n 10)) EmptyString)).
  simpl in *; lia.
Qed.

Lemma substring_last_two (m : string) :
  2 <= String.length m ->
  exists d1 d2, substring (String.length m - 2) 2 m = String d1 (String d2 EmptyString).
Proof.
  induction m as [|c m IH]; simpl; intros Hm; [lia|].
  destruct m as [|c2 m]; simpl in *; [lia|].
  destruct m as [|c3 m].
  - exists c, c2; reflexivity.
  - simpl in *. destruct IH as [d1 [d2 Hd]]; [lia|].
    exists d1, d2. replace (String.length m - 0) with (String.length m) in Hd by lia.
    exact Hd.
Qed.

(** [toFixed(2)] prints exactly two fraction digits. *)
Lemma to_fixed2_two_decimals (x : Q) :
  exists ip d1 d2, to_fixed2 x = ip ++ "." ++ String d1 (String d2 EmptyString).
Proof.
  unfold to_fixed2.
  set (n := Z.div (200 * Z.abs (Qnum x) + Zpos (Qden x)) (2 * Zpos (Qden x))).
  set (m := Z_to_decimal n).
  set (m' := if Z.ltb n 10 then "00" ++ m else if Z.ltb n 100 then "0" ++ m else m).
  assert (Hlen : 2 <= String.length m').
  { destruct (Z_to_decimal_length n) as [H1 H2].
    unfold m', m; destruct (Z.ltb_spec n 10); [simpl; lia|].
    destruct (Z.ltb_spec n 100); [simpl; lia|]. apply H2; lia. }
  destruct (substring_last_two m' Hlen) as [d1 [d2 Hd]].
  exists ((if Z.ltb (Qnum x) 0 then "-" else "") ++ substring 0 (String.length m' - 2) m').
  exists d1, d2.
  rewrite Hd, string_app_assoc; reflexivity.
Qed.

Open Scope Q_scope.


(** A positive number is rounded to within a factor 2 (the relative error
    of binary64 rounding is at most [2^-53]; this coarse bound is what the
    loop bound needs). *)
Lemma round_double_bounds (x : Q) :
  0 < x -> (1 # 2) * x <= round_double x /\ round_double x <= 2 * x.
Proof.
  destruct x as [p q]; intros Hx.
  unfold Qlt in Hx; simpl in Hx.
  assert (Hp : (0 < p)%Z) by lia.
  unfold round_double; cbn [Qnum Qden].
  rewrite (Z.abs_eq p) by lia.
  destruct (Z.eqb_spec p 0) as [|_]; [lia|].
  pose proof (binary64_exponent_le p (Zpos q)) as Hle.
  set (e := binary64_exponent p (Zpos q)) in *.
  pose proof (scale_pow2_large p (Zpos q) e Hp eq_refl Hle) as Hab.
  assert (Hq : (0 < Zpos q)%Z) by reflexivity.
  remember (Zpos q) as qz eqn:Hqz.
  destruct (scale_pow2 p qz e) as [a b] eqn:Hs.
  destruct Hab as [Hb Hab].
  destruct (round_half_even_bounds a b Hb) as [Hm1 Hm2].
  set (m := round_half_even a b) in *.
  set (d := (a / b)%Z) in *.
  assert (Hd1 : (b * d <= a)%Z) by (apply Z.mul_div_le; lia).
  assert (Hd2 : (a < b * (d + 1))%Z).
  { pose proof (Z.mod_pos_bound a b Hb). pose proof (Z.div_mod a b). lia. }
  assert (Hd : (1 <= d)%Z).
  { assert (2 ^ 51 <= d)%Z; [|lia].
    apply Z.div_le_lower_bound; lia. }
  destruct (Z.ltb_spec p 0) as [|_]; [lia|].
  unfold scale_pow2 in Hs.
  destruct (Z.leb_spec 0 e) as [He | He]; injection Hs as <- <-.
  - unfold Qle, Qmult, inject_Z; cbn [Qnum Qden].
    rewrite !Pos2Z.inj_mul, <- Hqz.
    assert (d * (qz * 2 ^ e) <= m * (qz * 2 ^ e))%Z by nia.
    assert (m * (qz * 2 ^ e) <= (d + 1) * (qz * 2 ^ e))%Z by nia.
    assert (qz * 2 ^ e <= d * (qz * 2 ^ e))%Z by nia.
    split; lia.
  - assert (Hpow : (0 < 2 ^ (- e))%Z) by (apply Z.pow_pos_nonneg; lia).
    unfold Qle, Qmult; cbn [Qnum Qden].
    rewrite !Pos2Z.inj_mul, Z2Pos.id, <- Hqz by exact Hpow.
    assert (d * qz <= m * qz)%Z by nia.
    assert (m * qz <= (d + 1) * qz)%Z by nia.
    assert (qz <= d * qz)%Z by nia.
    split; lia.
Qed.

Lemma round_double_pos (x : Q) : 0 < x -> 0 < round_double x.
Proof.
  intros Hx; destruct (round_double_bounds x Hx) as [H _].
  apply Qlt_le_trans with ((1 # 2) * x); [|exact H].
  apply Qmult_lt_0_compat; [reflexivity | exact Hx].
Qed.

(** An integer below [2^53] is a double: [round_double] leaves its value,
    as a fraction [n * 2^k / 2^k]. *)
Lemma round_double_integer (n : Z) :
  (0 <= n < 2 ^ 53)%Z ->
  exists k, (0 <= k)%Z /\ round_double (inject_Z n) = Qmake (n * 2 ^ k) (Z.to_pos (2 ^ k)).
Proof.
  intros Hn.
  destruct (Z.eq_dec n 0) as [->|Hn0]; [exists 0%Z; split; reflexivity|].
  unfold round_double, inject_Z; cbn [Qnum Qden].
  rewrite (Z.abs_eq n) by lia.
  destruct (Z.eqb_spec n 0) as [|_]; [lia|].
  assert (Hlog : (Z.log2 n < 53)%Z) by (apply Z.log2_lt_pow2; lia).
  pose proof (binary64_exponent_le n 1) as Hle.
  change (Z.log2 1) with 0%Z in Hle.
  set (e := binary64_exponent n 1) in *.
  destruct (Z.ltb_spec n 0) as [|_]; [lia|].
  unfold scale_pow2.
  destruct (Z.leb_spec 0 e) as [He | He].
  - assert (e = 0%Z) as -> by lia.
    exists 0%Z; split; [reflexivity|].
    simpl; rewrite round_half_even_1; reflexivity.
  - exists (- e)%Z; split; [lia|].
    rewrite round_half_even_1; reflexivity.
Qed.

Lemma Qmake_pow2_le_1000 (n k : Z) :
  (0 <= k)%Z ->
  Qle_bool (Qmake (n * 2 ^ k) (Z.to_pos (2 ^ k))) 1000 = Z.leb n 1000.
Proof.
  intros Hk.
  assert (Hpow : (0 < 2 ^ k)%Z) by (apply Z.pow_pos_nonneg; lia).
  unfold Qle_bool; cbn [Qnum Qden]; rewrite Z2Pos.id by exact Hpow.
  destruct (Z.leb_spec (n * 2 ^ k * 1) (1000 * 2 ^ k)), (Z.leb_spec n 1000);
    reflexivity || nia.
Qed.

Lemma double_div_1000_bounds (x : Q) :
  0 < x -> 0 < double_div x 1000 /\ 500 * double_div x 1000 <= x.
Proof.
  intros Hx; unfold double_div.
  assert (Hx' : 0 < x / 1000) by (apply Qlt_shift_div_l; [reflexivity | lra]).
  destruct (round_double_bounds (x / 1000) Hx') as [_ Hup].
  split; [apply round_double_pos; exact Hx'|].
  assert (x / 1000 * 1000 == x) by (field; discriminate).
  lra.
Qed.

(** Each division takes at least a factor 500 off the size. *)
Lemma size_after_bound (s : N) (j : nat) :
  0 < number_of_N s ->
  0 < size_after s j /\ inject_Z (500 ^ Z.of_nat j) * size_after s j <= number_of_N s.
Proof.
  intros H0; induction j as [|j [Hpos Hle]].
  - split; [exact H0|].
    change (inject_Z (500 ^ Z.of_nat 0)) with 1.
    change (size_after s 0) with (number_of_N s).
    rewrite Qmult_1_l; apply Qle_refl.
  - change (size_after s (S j)) with (double_div (size_after s j) 1000).
    destruct (double_div_1000_bounds (size_after s j) Hpos) as [Hpos' Hdiv].
    split; [exact Hpos'|].
    rewrite Nat2Z.inj_succ, Z.pow_succ_r, inject_Z_mult by lia.
    assert (0 <= inject_Z (500 ^ Z.of_nat j)).
    { change 0 with (inject_Z 0); rewrite <- Zle_Qle; apply Z.pow_nonneg; lia. }
    assert (500 * double_div (size_after s j) 1000 * inject_Z (500 ^ Z.of_nat j)
            <= size_after s j * inject_Z (500 ^ Z.of_nat j))
      by (apply Qmult_le_compat_r; assumption).
    change (inject_Z 500) with 500.
    lra.
Qed.

(** The loop stops at the first size at most 1000, or when out of fuel. *)
Lemma divide_while_iter (fuel : nat) (size : Q) (cd : nat) :
  let '(size', k) := divide_while fuel size cd in
  exists i, k = (cd + i)%nat /\
    size' = Nat.iter i (fun size => double_div size 1000) size /\
    (forall j, (j < i)%nat -> 1000 < Nat.iter j (fun size => double_div size 1000) size) /\
    (size' <= 1000 \/ i = fuel).
Proof.
  revert size cd; induction fuel as [|f IH]; intros size cd; simpl.
  - exists 0%nat; repeat split; [lia | intros j Hj; lia | right; reflexivity].
  - destruct (Qle_bool size 1000) eqn:Hle.
    + exists 0%nat; repeat split; [lia | intros j Hj; lia|].
      left; apply Qle_bool_iff; exact Hle.
    + specialize (IH (double_div size 1000) (S cd)).
      destruct (divide_while f (double_div size 1000) (S cd)) as [size' k].
      destruct IH as (i & Hk & Hs & Hall & Hend).
      exists (S i); split; [lia|]; split.
      * rewrite Nat.iter_succ_r; exact Hs.
      * split.
        -- intros [|j] Hj.
           ++ change (1000 < size).
              apply Qnot_le_lt; intros H; apply Qle_bool_iff in H; congruence.
           ++ rewrite Nat.iter_succ_r; apply Hall; lia.
        -- destruct Hend as [Hend | ->]; [left; exact Hend | right; reflexivity].
Qed.

(** C2: the file-size text.  Up to 1000 bytes it is the byte count as an
    integer followed by the unit of index 0.  Above, the size (a double) is
    divided by 1000 once and then while it exceeds 1000, each quotient
    rounded to a double: the division count [k] is the first with
    [size_after s k <= 1000], and the text is that size printed with
    exactly two decimals followed by the unit of index [k].  So 500 bytes
    give "500" and 1,500,000 bytes give "1.50" with the unit of index 2. *)
Theorem file_size_text_spec (s : N) :
  ((s <= 1000)%N -> file_size_text C s = Z_to_decimal (Z.of_N s) ++ file_size_unit C 0) /\
  ((1000 < s)%N ->
   exists k : nat, (1 <= k)%nat /\
     (forall j : nat, (j < k)%nat -> 1000 < size_after s j) /\
     size_after s k <= 1000 /\
     file_size_text C s = to_fixed2 (size_after s k) ++ file_size_unit C k /\
     exists ip d1 d2,
       to_fixed2 (size_after s k) = ip ++ "." ++ String d1 (String d2 EmptyString)) /\
  file_size_text C 500 = "500" ++ file_size_unit C 0 /\
  file_size_text C 1500000 = "1.50" ++ file_size_unit C 2.
Proof.
  split; [|split; [|split; reflexivity]].
  - intros Hs.
    destruct (round_double_integer (Z.of_N s)) as (k & Hk & Hr); [lia|].
    unfold file_size_text, number_of_N; rewrite Hr, Qmake_pow2_le_1000 by exact Hk.
    destruct (Z.leb_spec (Z.of_N s) 1000) as [_|]; [|lia].
    cbn [negb]; unfold integral_to_string; cbn [Qfloor].
    rewrite Z2Pos.id by (apply Z.pow_pos_nonneg; lia).
    rewrite Z.div_mul by (apply Z.pow_nonzero; lia).
    reflexivity.
  - intros Hs.
    assert (Hv0 : 1000 < number_of_N s).
    { destruct (Z.ltb_spec (Z.of_N s) (2 ^ 53)) as [Hsmall | Hbig].
      - destruct (round_double_integer (Z.of_N s)) as (k & Hk & Hr); [lia|].
        unfold number_of_N; rewrite Hr.
        apply Qnot_le_lt; intros H; apply Qle_bool_iff in H.
        rewrite Qmake_pow2_le_1000 in H by exact Hk.
        apply Z.leb_le in H; lia.
      - assert (Hpos : 0 < inject_Z (Z.of_N s)).
        { change 0 with (inject_Z 0); rewrite <- Zlt_Qlt; lia. }
        destruct (round_double_bounds _ Hpos) as [Hlow _].
        assert (inject_Z (2 ^ 53) <= inject_Z (Z.of_N s)) by (rewrite <- Zle_Qle; exact Hbig).
        change (inject_Z (2 ^ 53)) with (9007199254740992 # 1) in *.
        unfold number_of_N; lra. }
    assert (Hpos0 : 0 < number_of_N s) by lra.
    assert (Hgt : Qle_bool (number_of_N s) 1000 = false).
    { destruct (Qle_bool _ _) eqn:E; [|reflexivity].
      apply Qle_bool_iff in E; lra. }
    unfold file_size_text; rewrite Hgt; cbn [negb].
    set (fuel := S (Z.to_nat (Z.log2 (Z.of_N s)))).
    pose proof (divide_while_iter fuel (double_div (number_of_N s) 1000) 1) as Hloop.
    destruct (divide_while fuel (double_div (number_of_N s) 1000) 1) as [size k] eqn:Hdw.
    destruct Hloop as (i & -> & Hsize & Hall & Hend).
    assert (Hsa : size_after s (S i)
                  = Nat.iter i (fun size => double_div size 1000) (double_div (number_of_N s) 1000))
      by (unfold size_after; rewrite Nat.iter_succ_r; reflexivity).
    rewrite <- Hsa in Hsize.
    assert (Hlast : size_after s (S i) <= 1000).
    { destruct Hend as [Hend | Hi]; [rewrite <- Hsize; exact Hend|].
      destruct (size_after_bound s (S i) Hpos0) as [Hp Hb].
      assert (Hpos : 0 < inject_Z (Z.of_N s)).
      { change 0 with (inject_Z 0); rewrite <- Zlt_Qlt; lia. }
      destruct (round_double_bounds _ Hpos) as [_ Hup].
      fold (number_of_N s) in Hup.
      assert (Hfuel : (2 * Z.of_N s <= 500 ^ Z.of_nat (S i))%Z).
      { subst i; unfold fuel.
        set (L := Z.log2 (Z.of_N s)).
        assert (0 <= L)%Z by apply Z.log2_nonneg.
        destruct (Z.log2_spec (Z.of_N s)) as [_ Hlt]; [lia|].
        assert (2 ^ Z.succ L <= 500 ^ Z.succ L)%Z by (apply Z.pow_le_mono_l; lia).
        assert (Z.of_nat (S (S (Z.to_nat L))) = Z.succ (Z.succ L)) as -> by lia.
        rewrite (Z.pow_succ_r 500 (Z.succ L)) by lia.
        fold L in Hlt; lia. }
      rewrite Zle_Qle, inject_Z_mult in Hfuel.
      change (inject_Z 2) with 2 in Hfuel.
      set (P := inject_Z (500 ^ Z.of_nat (S i))) in *.
      assert (HP : 0 < P) by (apply Qlt_le_trans with (2 * inject_Z (Z.of_N s)); lra).
      apply Qmult_le_l with P; [exact HP|].
      lra. }
    exists (S i); split; [lia|]; split; [|split; [exact Hlast|]].
    + intros [|j] Hj; [exact Hv0|].
      change (size_after s (S j))
        with (Nat.iter (S j) (fun size => double_div size 1000) (number_of_N s)).
      rewrite Nat.iter_succ_r; apply Hall; lia.
    + rewrite <- Hsize; split; [reflexivity | apply to_fixed2_two_decimals].
Qed.

End FileSize.

(** [round_double] agrees with IEEE-754 binary64 division on the sizes of
    the file-size loop: every size from 1 to 2000 bytes after one and two
    divisions, and 10^27 bytes after up to eleven. *)
Lemma size_after_binary64 :
  forallb (fun n => agrees_with_binary64 (N.of_nat n) 1 && agrees_with_binary64 (N.of_nat n) 2)
    (seq 1 2000) = true /\
  forallb (agrees_with_binary64 (10 ^ 27)%N) (seq 0 12) = true.
Proof. split; vm_compute; reflexivity. Qed.

(** As in the source: 1005 bytes print as "1.00kb" (1005 / 1000 is the
    double just below 1.005), and 10^27 bytes stop after eight divisions at
    exactly 1000, past the five units of the table. *)
Lemma file_size_text_1005 :
  (size_after 1005 1 < 1005 # 1000)%Q /\ file_size_text spec_constants 1005 = "1.00kb".
Proof. split; vm_compute; reflexivity. Qed.

Lemma file_size_text_1e27 :
  (size_after (10 ^ 27) 8 == 1000)%Q /\ (1000 < size_after (10 ^ 27) 7)%Q /\
  file_size_text spec_constants (10 ^ 27) = "1000.00undefined".
Proof. split; [|split]; vm_compute; reflexivity. Qed.

(* ================================================================= *)
(** ** When [activity] returns *)

Section Totality.

Context (K : REPLACE_KEYS) (C : Constants) (U : Util) (R : Runtime).







Lemma replace_step_js_replace (raw tok v : string) :
  (if includes raw tok then js_replace raw tok v else raw) = js_replace raw tok v.
Proof.
  destruct (includes raw tok) eqn:E; [reflexivity|].
  symmetry; apply js_replace_absent; exact E.
Qed.

Lemma fileDetails_fold (h : Host) (raw : string) (document : TextDocument)
    (selection : Selection) (git : option GitAPI) (size : N) (name : string) :
  getAPI h.(gitExtension) = Ok git ->
  h.(fs_stat) document.(uri) = Some size ->
  git_repo_name_value C git = Ok name ->
  fileDetails K C R h raw document selection
  = Ok (replace_each_once (file_details_values K C R git size name document selection) raw).
Proof.
  intros Hapi Hstat Hname.
  unfold fileDetails; cbv zeta; rewrite Hapi; cbn [bind].
  assert (E1 : forall r, total_lines_step K document r
                         = js_replace r K.(TotalLines) (document_toLocaleString document))
    by (intros r; apply replace_step_js_replace).
  assert (E2 : forall r, current_line_step K R selection r
                         = js_replace r K.(CurrentLine)
                             (R.(number_toLocaleString) (selection.(active).(line) + 1)))
    by (intros r; apply replace_step_js_replace).
  assert (E3 : forall r, current_column_step K R selection r
                         = js_replace r K.(CurrentColumn)
                             (R.(number_toLocaleString) (selection.(active).(character) + 1)))
    by (intros r; apply replace_step_js_replace).
  rewrite E1, E2, E3; clear E1 E2 E3.
  assert (E4 : forall r, file_size_step K C h document r
                         = Ok (js_replace r K.(FileSize) (file_size_text C size))).
  { intros r; unfold file_size_step; rewrite Hstat.
    destruct (includes r K.(FileSize)) eqn:E; [reflexivity|].
    rewrite (js_replace_absent r _ _ E); reflexivity. }
  rewrite E4; clear E4; cbn [bind].
  unfold git_branch_step, git_repo_name_step.
  set (r := js_replace _ K.(FileSize) _).
  assert (Hb : (if includes r K.(GitBranch) then
                  match git with
                  | Some g => if has_repositories git
                              then js_replace r K.(GitBranch) (selected_branch_name C g)
                              else js_replace r K.(GitBranch) C.(UNKNOWN_GIT_BRANCH)
                  | None => js_replace r K.(GitBranch) C.(UNKNOWN_GIT_BRANCH)
                  end else r)
               = js_replace r K.(GitBranch) (git_branch_value C git)).
  { unfold git_branch_value.
    destruct git as [g|]; [destruct (has_repositories (Some g))|];
      apply replace_step_js_replace. }
  rewrite Hb; clear Hb.
  set (r2 := js_replace r K.(GitBranch) _).
  unfold git_repo_name_value in Hname.
  destruct (includes r2 K.(GitRepoName)) eqn:E.
  - destruct git as [g|].
    + destruct (has_repositories (Some g)).
      * rewrite Hname; reflexivity.
      * injection Hname as <-; reflexivity.
    + injection Hname as <-; reflexivity.
  - cbn [bind]; unfold replace_each_once; simpl; fold r r2.
    rewrite (js_replace_absent r2 _ _ E); reflexivity.
Qed.

(** C5 (amended): the substitution engine replaces each scanned token once,
    in order, through [js_replace] ([String.prototype.replace] with a
    string pattern): when [getAPI(1)], the stat call and the repository
    name all succeed, [fileDetails] and the editing template of [details]
    are the fold of [js_replace] over their token/value lists. One
    [js_replace] replaces the leftmost occurrence of the token only, with
    the value after expansion of its [$]-patterns, which leaves a value
    without [$] verbatim; the text after it, further occurrences of the
    token included, is untouched, and a text without the token is
    returned unchanged. *)
Theorem fileDetails_replaces_first_occurrences (h : Host) (ed : TextEditor) (raw : string)
    (git : option GitAPI) (size : N) (name : string)
    (Hapi : getAPI h.(gitExtension) = Ok git)
    (Hstat : h.(fs_stat) ed.(document).(uri) = Some size)
    (Hname : git_repo_name_value C git = Ok name) :
  fileDetails K C R h raw ed.(document) ed.(selection)
  = Ok (replace_each_once
          (file_details_values K C R git size name ed.(document) ed.(selection)) raw) /\
  fill_editor_template K C U R h ed raw
  = Ok (replace_each_once (editor_template_values K C U R h ed git size name) raw) /\
  (forall s tok v b a, split_first tok s = Some (b, a) ->
     s = b ++ tok ++ a /\
     (forall b' a', s = b' ++ tok ++ a' -> String.length b <= String.length b') /\
     js_replace s tok v = b ++ get_substitution b tok a v ++ a) /\
  (forall s tok v, split_first tok s = None ->
     js_replace s tok v = s /\ forall b a, s <> b ++ tok ++ a) /\
  (forall b tok a v, includes v "$" = false -> get_substitution b tok a v = v).
Proof.
  split; [exact (fileDetails_fold h raw _ _ git size name Hapi Hstat Hname)|].
  split.
  - unfold fill_editor_template, editor_template_values; cbv zeta.
    set (raw' := match getWorkspaceFolder h (uri (document ed)) with
                 | Some wf => _ | None => raw end).
    rewrite (fileDetails_fold h raw' _ _ git size name Hapi Hstat Hname); cbn [bind].
    unfold replace_each_once; rewrite !fold_left_app.
    unfold raw'; destruct (getWorkspaceFolder h (uri (document ed))); reflexivity.
  - split; [|split].
    + intros s tok v b a Hs.
      destruct (split_first_some tok s b a Hs) as [Heq Hmin].
      split; [exact Heq|]; split; [exact Hmin|].
      unfold js_replace; rewrite Hs; reflexivity.
    + intros s tok v Hs; split.
      * unfold js_replace; rewrite Hs; reflexivity.
      * exact (split_first_none tok s Hs).
    + intros b tok a v Hv; apply get_substitution_no_dollar; exact Hv.
Qed.

End Totality.


(* ================================================================= *)
(** ** Defects *)

(** C6: the total-lines token is replaced by [document.toLocaleString()],
    the text ["[object Object]"], whatever the document's line count. *)
Theorem total_lines_object_text :
  (forall (K : REPLACE_KEYS) (document : TextDocument) (raw : string),
     total_lines_step K document raw = js_replace raw K.(TotalLines) "[object Object]") /\
  (sample_document "typescript").(lineCount) = 42%Z /\
  fileDetails spec_keys spec_constants posix_runtime (idle_host false)
    "{total_lines}" (sample_document "typescript") (sample_editor "typescript").(selection)
  = Ok "[object Object]".
Proof.
  split; [|split; [reflexivity | vm_compute; reflexivity]].
  intros K document raw; unfold total_lines_step.
  destruct (includes raw (TotalLines K)) eqn:Hi; [reflexivity|].
  rewrite js_replace_absent by exact Hi; reflexivity.
Qed.

(** C4: a selected repository without remotes makes the repository-name
    lookup read [fetchUrl] of [undefined]: [activity] throws. *)
Theorem activity_selected_repo_without_remotes_throws :
  sample_run (sample_host repo_config (Some (sample_editor "typescript")) false
                (Some noremote_git)) 0
  = Throw TypeError.
Proof. vm_compute; reflexivity. Qed.

(* ================================================================= *)
(** ** Witnesses: the theorems at concrete inputs *)

Lemma activity_startTimestamp_carried_witness :
  sample_run (editing_host false "typescript") 77
    = Ok (payload_of (sample_run (editing_host false "typescript") 77)) /\
  (payload_of (sample_run (editing_host false "typescript") 77)).(Payload.startTimestamp)
    = Some (Some 77%Z).
Proof.
  assert (Hrun : sample_run (editing_host false "typescript") 77
                 = Ok (payload_of (sample_run (editing_host false "typescript") 77)))
    by (vm_compute; reflexivity).
  split; [exact Hrun|].
  exact (proj1 (activity_startTimestamp_carried spec_keys spec_constants sample_util
                  posix_runtime _ empty_payload _ 77 Hrun)).
Defined.

Lemma fileDetails_replaces_first_occurrences_witness :
  getAPI (sample_host sample_config (Some (sample_editor "typescript")) false None).(gitExtension)
    = Ok None /\
  fileDetails spec_keys spec_constants posix_runtime
    (sample_host sample_config (Some (sample_editor "typescript")) false None)
    "{current_line} {current_line}" (sample_editor "typescript").(document)
    (sample_editor "typescript").(selection)
  = Ok (replace_each_once
          (file_details_values spec_keys spec_constants posix_runtime None 1500000
             spec_constants.(UNKNOWN_GIT_REPO_NAME) (sample_editor "typescript").(document)
             (sample_editor "typescript").(selection))
          "{current_line} {current_line}") /\
  replace_each_once
    (file_details_values spec_keys spec_constants posix_runtime None 1500000
       spec_constants.(UNKNOWN_GIT_REPO_NAME) (sample_editor "typescript").(document)
       (sample_editor "typescript").(selection))
    "{current_line} {current_line}" = "5 {current_line}".
Proof.
  split; [reflexivity|]; split; [|vm_compute; reflexivity].
  exact (proj1 (fileDetails_replaces_first_occurrences spec_keys spec_constants sample_util
                  posix_runtime
                  (sample_host sample_config (Some (sample_editor "typescript")) false None)
                  (sample_editor "typescript") "{current_line} {current_line}"
                  None 1500000 spec_constants.(UNKNOWN_GIT_REPO_NAME)
                  eq_refl eq_refl eq_refl)).
Defined.

Lemma fileDetails_identity_without_tokens_witness :
  includes "Hello world" spec_keys.(TotalLines) = false /\
  includes "Hello world" spec_keys.(CurrentLine) = false /\
  includes "Hello world" spec_keys.(CurrentColumn) = false /\
  includes "Hello world" spec_keys.(FileSize) = false /\
  includes "Hello world" spec_keys.(GitBranch) = false /\
  includes "Hello world" spec_keys.(GitRepoName) = false /\
  getAPI (idle_host false).(gitExtension) = Ok None /\
  fileDetails spec_keys spec_constants posix_runtime (idle_host false) "Hello world"
    (sample_document "typescript") (sample_editor "typescript").(selection)
  = Ok "Hello world" /\
  getAPI (with_git_disabled (idle_host false)).(gitExtension) = Throw GitModelNotFound /\
  fileDetails spec_keys spec_constants posix_runtime (with_git_disabled (idle_host false))
    "Hello world" (sample_document "typescript") (sample_editor "typescript").(selection)
  = Throw GitModelNotFound.
Proof.
  do 7 (split; [reflexivity|]).
  split.
  - exact (proj1 (fileDetails_identity_without_tokens spec_keys spec_constants posix_runtime
                    (idle_host false) "Hello world" (sample_document "typescript")
                    (sample_editor "typescript").(selection)
                    eq_refl eq_refl eq_refl eq_refl eq_refl eq_refl) None eq_refl).
  - split; [reflexivity|].
    exact (proj2 (fileDetails_identity_without_tokens spec_keys spec_constants posix_runtime
                    (with_git_disabled (idle_host false)) "Hello world"
                    (sample_document "typescript") (sample_editor "typescript").(selection)
                    eq_refl eq_refl eq_refl eq_refl eq_refl eq_refl) GitModelNotFound eq_refl).
Defined.

Lemma activity_idle_templates_witness :
  (idle_host true).(activeTextEditor) = None /\
  exists p, sample_run (idle_host true) 5 = Ok p /\
    p.(Payload.details) = Some "Idling" /\ p.(Payload.state) = Some "".
Proof.
  split; [reflexivity|].
  exact (activity_idle_templates spec_keys spec_constants sample_util posix_runtime
           (idle_host true) empty_payload 5 eq_refl).
Defined.

Lemma activity_debugging_templates_witness :
  (editing_host true "typescript").(activeTextEditor) = Some (sample_editor "typescript") /\
  (editing_host true "typescript").(activeDebugSession) = true /\
  sample_run (editing_host true "typescript") 77
    = Ok (payload_of (sample_run (editing_host true "typescript") 77)) /\
  (payload_of (sample_run (editing_host true "typescript") 77)).(Payload.details)
    = Some "Debugging main.ts".
Proof.
  assert (Hrun : sample_run (editing_host true "typescript") 77
                 = Ok (payload_of (sample_run (editing_host true "typescript") 77)))
    by (vm_compute; reflexivity).
  split; [reflexivity|]; split; [reflexivity|]; split; [exact Hrun|].
  destruct (activity_debugging_templates spec_keys spec_constants sample_util posix_runtime
              (editing_host true "typescript") (sample_editor "typescript") empty_payload _ 77
              eq_refl eq_refl Hrun) as [(d & s & Hd & _ & Hpd & _) _].
  rewrite Hpd. vm_compute in Hd. injection Hd as <-. reflexivity.
Defined.

Lemma activity_log_document_witness :
  (editing_host false "Log").(activeTextEditor) = Some (sample_editor "Log") /\
  (sample_editor "Log").(document).(languageId) = "Log" /\
  sample_run (editing_host false "Log") 3
    = Ok (payload_of (sample_run (editing_host false "Log") 3)) /\
  (payload_of (sample_run (editing_host false "Log") 3)).(Payload.largeImageKey)
    = Some "vscode-big".
Proof.
  assert (Hrun : sample_run (editing_host false "Log") 3
                 = Ok (payload_of (sample_run (editing_host false "Log") 3)))
    by (vm_compute; reflexivity).
  split; [reflexivity|]; split; [reflexivity|]; split; [exact Hrun|].
  exact (proj1 (activity_log_document spec_keys spec_constants sample_util posix_runtime
                  (editing_host false "Log") (sample_editor "Log") empty_payload _ 3
                  eq_refl eq_refl Hrun)).
Defined.


(* ================================================================= *)
(** ** Further properties of the module: helper lemmas *)

Lemma includes_char_cons (d c : ascii) (v : string) :
  includes (String c v) (String d EmptyString) = false ->
  c <> d /\ includes v (String d EmptyString) = false.
Proof.
  unfold includes; rewrite split_first_unfold; cbn [starts_with].
  destruct (Ascii.eqb d c) eqn:Hc; simpl; [discriminate|].
  intros H; split.
  - intros ->; rewrite Ascii.eqb_refl in Hc; discriminate.
  - destruct (split_first (String d EmptyString) v) as [[]|]; [discriminate | reflexivity].
Qed.

Lemma string_app_nil_r (s : string) : s ++ EmptyString = s.
Proof. induction s as [|c s IH]; simpl; [reflexivity | now rewrite IH]. Qed.

(** Splitting at a one-character separator absent from [a]. *)
Lemma split_first_char (d : ascii) (a b : string) :
  includes a (String d EmptyString) = false ->
  split_first (String d EmptyString) (a ++ String d b) = Some (a, b).
Proof.
  induction a as [|c a IH]; intros Ha.
  - rewrite split_first_unfold; simpl; rewrite Ascii.eqb_refl; simpl.
    rewrite (substring_0_whole b) by lia; reflexivity.
  - apply includes_char_cons in Ha as [Hne Ha].
    rewrite split_first_unfold; simpl.
    destruct (Ascii.eqb d c) eqn:Hdc.
    + apply Ascii.eqb_eq in Hdc; congruence.
    + simpl; rewrite (IH Ha); reflexivity.
Qed.

Lemma split_aux_cons (f : nat) (sep s : string) : split_aux f sep s <> [].
Proof. destruct f; simpl; [discriminate|]. destruct (split_first sep s) as [[]|]; discriminate. Qed.

(** The second ['/']-separated field of [a/seg] or [a/seg/rest]. *)
Lemma js_split_second_field (a seg tail : string) :
  includes a "/" = false -> includes seg "/" = false ->
  (tail = EmptyString \/ exists r, tail = String "/" r) ->
  nth_error (js_split (a ++ "/" ++ seg ++ tail) "/") 1 = Some seg.
Proof.
  intros Ha Hseg Ht.
  unfold js_split.
  rewrite string_length_append; simpl String.length.
  replace (String.length a + S (String.length (seg ++ tail)))
    with (S (String.length a + String.length (seg ++ tail))) by lia.
  change ("/" ++ seg ++ tail) with (String "/" (seg ++ tail)).
  cbn [split_aux]. rewrite (split_first_char "/" a (seg ++ tail) Ha).
  destruct Ht as [-> | [r ->]].
  - rewrite (string_app_nil_r seg).
    unfold includes in Hseg.
    destruct (String.length a + String.length seg) as [|m]; cbn [split_aux];
      destruct (split_first "/" seg) as [[]|]; try discriminate; reflexivity.
  - rewrite string_length_append; simpl String.length.
    replace (String.length a + (String.length seg + S (String.length r)))
      with (S (String.length a + String.length seg + String.length r)) by lia.
    cbn [split_aux].
    rewrite (split_first_char "/" seg r Hseg). reflexivity.
Qed.

Lemma js_split_no_slash (url : string) :
  includes url "/" = false -> nth_error (js_split url "/") 1 = None.
Proof.
  unfold includes, js_split; intros H; cbn [split_aux].
  destruct (split_first "/" url) as [[]|]; [discriminate | reflexivity].
Qed.

Lemma js_split_slash (url : string) :
  includes url "/" = true -> exists part, nth_error (js_split url "/") 1 = Some part.
Proof.
  unfold includes, js_split; intros H; cbn [split_aux].
  destruct (split_first "/" url) as [[b a]|] eqn:E; [|discriminate].
  apply split_first_some in E as [-> _].
  rewrite string_length_append; simpl String.length.
  replace (String.length b + S (String.length a)) with (S (String.length b + String.length a))
    by lia.
  cbn [split_aux].
  destruct (split_first "/" a) as [[b' a']|]; eexists; reflexivity.
Qed.

Lemma substring_0_length (m : nat) (t : string) :
  m <= String.length t -> String.length (substring 0 m t) = m.
Proof.
  revert t; induction m as [|m IH]; intros t Hm; [destruct t; reflexivity|].
  destruct t as [|c t]; simpl in *; [lia|]. rewrite IH; lia.
Qed.

Lemma repeat_pad_length (k : nat) (pad : string) :
  pad <> EmptyString -> k <= String.length (repeat_pad k pad).
Proof.
  intros Hp; induction k as [|k IH]; simpl; [lia|].
  rewrite string_length_append; destruct pad; [congruence|]; simpl; lia.
Qed.

(** [padEnd] with an empty pad string leaves the text as it is; with a
    non-empty one it only appends, up to at least the target length. *)
Lemma pad_end_empty (s : string) (n : nat) : pad_end s n EmptyString = s.
Proof. unfold pad_end; destruct (Nat.leb n (String.length s)); reflexivity. Qed.

Lemma pad_end_nonempty (s : string) (n : nat) (pad : string) :
  pad <> EmptyString ->
  n <= String.length (pad_end s n pad) /\ exists rest, pad_end s n pad = s ++ rest.
Proof.
  intros Hp; unfold pad_end.
  destruct (Nat.leb_spec n (String.length s)) as [Hle|Hgt].
  - split; [lia | exists EmptyString; symmetry; apply string_app_nil_r].
  - destruct pad as [|c p]; [congruence|].
    split; [|eexists; reflexivity].
    rewrite string_length_append, substring_0_length; [lia|].
    apply repeat_pad_length; discriminate.
Qed.

Lemma find_first_selected (g : GitAPI) (pre post : list Repository) (r : Repository) :
  g.(repositories) = (pre ++ r :: post)%list ->
  Forall (fun x => x.(ui).(selected) = false) pre ->
  r.(ui).(selected) = true ->
  selected_repository g = Some r.
Proof.
  unfold selected_repository; intros -> Hpre Hr.
  induction Hpre as [|x pre Hx _ IH]; simpl; [now rewrite Hr | now rewrite Hx].
Qed.

Lemma selected_has_repositories (g : GitAPI) (r : Repository) :
  selected_repository g = Some r -> has_repositories (Some g) = true.
Proof.
  unfold selected_repository, has_repositories.
  destruct (repositories g); [discriminate | reflexivity].
Qed.

(* ================================================================= *)
(** ** Git details *)

Section GitDetails.

Context (K : REPLACE_KEYS) (C : Constants).

(** The branch text comes from the first selected repository in the order
    of [git.repositories]: the name of its [HEAD], or [EMPTY] when it has no
    [HEAD] or the [HEAD] has no name; repositories selected after it are
    ignored. *)
Theorem git_branch_first_selected (g : GitAPI) (pre post : list Repository)
    (r : Repository) (raw : string)
    (Hrepos : g.(repositories) = (pre ++ r :: post)%list)
    (Hpre : Forall (fun x => x.(ui).(selected) = false) pre)
    (Hr : r.(ui).(selected) = true)
    (Hraw : includes raw K.(GitBranch) = true) :
  git_branch_step K C (Some g) raw
  = js_replace raw K.(GitBranch)
      (match r.(repo_state).(HEAD) with
       | Some b => match b.(branch_name) with Some n => n | None => C.(EMPTY) end
       | None => C.(EMPTY)
       end).
Proof.
  pose proof (find_first_selected g pre post r Hrepos Hpre Hr) as Hsel.
  unfold git_branch_step; rewrite Hraw, (selected_has_repositories g r Hsel).
  unfold selected_branch_name; rewrite Hsel; reflexivity.
Qed.

(** For a fetch URL [a/seg] or [a/seg/...] whose parts [a] and [seg] hold
    no ['/'] (an scp-style [git@host:owner/name.git] or a bare
    [owner/name.git]), the repository name is [seg] with its first [".git"]
    removed. *)
Theorem git_repo_name_second_field (g : GitAPI) (r : Repository) (remote : Remote)
    (others : list Remote) (a seg tail raw : string)
    (Hsel : selected_repository g = Some r)
    (Hremotes : r.(repo_state).(remotes) = remote :: others)
    (Hurl : remote.(fetchUrl) = Some (a ++ "/" ++ seg ++ tail))
    (Ha : includes a "/" = false) (Hseg : includes seg "/" = false)
    (Htail : tail = EmptyString \/ exists rest, tail = String "/" rest)
    (Hraw : includes raw K.(GitRepoName) = true) :
  git_repo_name_step K C (Some g) raw
  = Ok (js_replace raw K.(GitRepoName) (js_replace seg ".git" "")).
Proof.
  unfold git_repo_name_step; rewrite Hraw, (selected_has_repositories g r Hsel).
  unfold selected_repo_name; rewrite Hsel, Hremotes.
  simpl (nth_error (remote :: others) 0); cbv beta iota; rewrite Hurl.
  rewrite (js_split_second_field a seg tail Ha Hseg Htail); reflexivity.
Qed.

(** An [https://host/owner/name.git] fetch URL splits at ['/'] into
    ["https:"], [""], ...: its repository name is always the empty
    string. *)
Theorem git_repo_name_https (g : GitAPI) (r : Repository) (remote : Remote)
    (others : list Remote) (rest raw : string)
    (Hsel : selected_repository g = Some r)
    (Hremotes : r.(repo_state).(remotes) = remote :: others)
    (Hurl : remote.(fetchUrl) = Some ("https://" ++ rest))
    (Hraw : includes raw K.(GitRepoName) = true) :
  git_repo_name_step K C (Some g) raw = Ok (js_replace raw K.(GitRepoName) "").
Proof.
  unfold git_repo_name_step; rewrite Hraw, (selected_has_repositories g r Hsel).
  unfold selected_repo_name; rewrite Hsel, Hremotes.
  simpl (nth_error (remote :: others) 0); cbv beta iota; rewrite Hurl.
  change ("https://" ++ rest) with ("https:" ++ "/" ++ "" ++ String "/" rest).
  rewrite (js_split_second_field "https:" "" (String "/" rest)); try reflexivity.
  right; exists rest; reflexivity.
Qed.

(** The repository-name step raises a [TypeError] exactly in two cases
    once the token is present and a repository is selected: the repository
    has no remote, or its first remote's fetch URL holds no ['/']. *)
Theorem git_repo_name_type_error (g : GitAPI) (r : Repository) (raw : string)
    (Hsel : selected_repository g = Some r)
    (Hraw : includes raw K.(GitRepoName) = true) :
  git_repo_name_step K C (Some g) raw = Throw TypeError <->
  r.(repo_state).(remotes) = [] \/
  exists remote others url,
    r.(repo_state).(remotes) = remote :: others /\
    remote.(fetchUrl) = Some url /\ includes url "/" = false.
Proof.
  unfold git_repo_name_step; rewrite Hraw, (selected_has_repositories g r Hsel).
  unfold selected_repo_name; rewrite Hsel.
  destruct (remotes (repo_state r)) as [|remote others];
    [simpl (nth_error [] 0) | simpl (nth_error (remote :: others) 0)]; cbv beta iota.
  - split; [left; reflexivity | reflexivity].
  - destruct (fetchUrl remote) as [url|] eqn:Hf.
    + destruct (includes url "/") eqn:Hi.
      * destruct (js_split_slash url Hi) as [part Hp]; rewrite Hp; simpl.
        split; [discriminate|].
        intros [H | (remote' & others' & url' & Hr & Hf' & Hi')]; [discriminate|].
        injection Hr as <- <-; rewrite Hf in Hf'; injection Hf' as <-; congruence.
      * rewrite (js_split_no_slash url Hi); simpl.
        split; [intros _; right; exists remote, others, url; auto | reflexivity].
    + simpl; split; [discriminate|].
      intros [H | (remote' & others' & url' & Hr & Hf' & Hi')]; [discriminate|].
      injection Hr as <- <-; congruence.
Qed.

End GitDetails.

(* ================================================================= *)
(** ** The payload fields set by [activity] *)

Section PayloadFields.

Context (K : REPLACE_KEYS) (C : Constants) (U : Util) (R : Runtime).

(** With an active editor on a document whose language is not "Log", the
    large image is the document's file icon and its text is the large-image
    template with the three language tokens filled from that icon, padded
    at its end to two characters with [EMPTY]: with an empty [EMPTY] the
    text is the filled template unchanged, otherwise the filled template is
    a prefix of the text and the text has at least two characters. *)
Theorem activity_large_image_editor (h : Host) (ed : TextEditor)
    (previous p : ActivityPayload) (now : Z)
    (Hed : h.(activeTextEditor) = Some ed)
    (Hlang : ed.(document).(languageId) <> "Log")
    (Hrun : activity K C U R h previous now = Ok p) :
  let icon := U.(resolveFileIcon) ed.(document) in
  let filled :=
    js_replace (js_replace (js_replace (h.(config) LargeImage)
      K.(LanguageLowerCase) (U.(toLower) icon))
      K.(LanguageTitleCase) (U.(toTitle) icon))
      K.(LanguageUpperCase) (U.(toUpper) icon) in
  p.(Payload.largeImageKey) = Some icon /\
  exists text, p.(Payload.largeImageText) = Some text /\
    (C.(EMPTY) = EmptyString -> text = filled) /\
    (C.(EMPTY) <> EmptyString ->
     2 <= String.length text /\ exists rest, text = filled ++ rest).
Proof.
  intros icon filled; revert Hrun; unfold activity.
  destruct (details K C U R h DetailsIdling DetailsEditing DetailsDebugging);
    simpl; [|discriminate].
  destruct (details K C U R h LowerDetailsIdling LowerDetailsEditing LowerDetailsDebugging);
    simpl; [|discriminate].
  rewrite Hed.
  destruct (String.eqb_spec (languageId (document ed)) "Log") as [Hl|_]; [congruence|].
  simpl; intros H; injection H as <-; simpl.
  split; [reflexivity|].
  exists (pad_end filled 2 (EMPTY C)); split; [reflexivity|]; split.
  - intros ->; apply pad_end_empty.
  - intros Hne; apply pad_end_nonempty; exact Hne.
Qed.

End PayloadFields.

(* ================================================================= *)
(** ** Workspace texts of [details] *)

Lemma js_replace_self (tok v : string) :
  includes v "$" = false -> js_replace tok tok v = v.
Proof.
  intros Hv; unfold js_replace; rewrite split_first_unfold.
  assert (Hs : starts_with tok tok = true)
    by (apply starts_with_spec; exists EmptyString; symmetry; apply string_app_nil_r).
  rewrite Hs.
  assert (Hsub : substring (String.length tok) (String.length tok) tok = EmptyString).
  { pose proof (substring_after_prefix tok EmptyString (String.length tok)) as E.
    rewrite string_app_nil_r in E; apply E; simpl; lia. }
  rewrite Hsub.
  rewrite get_substitution_no_dollar by exact Hv.
  simpl; apply string_app_nil_r.
Qed.

Ltac split_forall :=
  repeat match goal with
  | H : Forall _ (_ :: _) |- _ => inversion_clear H
  | H : Forall _ [] |- _ => clear H
  end.

Lemma string_app_same_length (b1 b2 x1 x2 : string) :
  String.length b1 = String.length b2 -> b1 ++ x1 = b2 ++ x2 -> b1 = b2 /\ x1 = x2.
Proof.
  revert b2; induction b1 as [|c b1 IH]; intros [|c' b2] Hl He; try discriminate.
  - split; [reflexivity | exact He].
  - injection Hl as Hl; injection He as -> He.
    destruct (IH b2 Hl He) as [-> ->]; split; reflexivity.
Qed.

(** [js_replace] at a known leftmost occurrence, with a value without [$]. *)
Lemma js_replace_at (pre tok post v : string) :
  (forall b a, pre ++ tok ++ post = b ++ tok ++ a -> String.length pre <= String.length b) ->
  includes v "$" = false ->
  js_replace (pre ++ tok ++ post) tok v = pre ++ v ++ post.
Proof.
  intros Hpre Hv; unfold js_replace.
  destruct (split_first tok (pre ++ tok ++ post)) as [[b a]|] eqn:Hs.
  - destruct (split_first_some tok _ b a Hs) as [Heq Hmin].
    pose proof (Hmin pre post eq_refl) as H1.
    pose proof (Hpre b a Heq) as H2.
    destruct (string_app_same_length pre b (tok ++ post) (tok ++ a)) as [<- Ht];
      [lia | exact Heq|].
    destruct (string_app_same_length tok tok post a eq_refl Ht) as [_ <-].
    rewrite get_substitution_no_dollar by exact Hv; reflexivity.
  - exfalso; exact (split_first_none tok _ Hs pre post eq_refl).
Qed.

Lemma leftmost_of_split_first (pre tok post : string) :
  split_first tok (pre ++ tok ++ post) = Some (pre, post) ->
  forall b a, pre ++ tok ++ post = b ++ tok ++ a -> String.length pre <= String.length b.
Proof. intros Hs; exact (proj2 (split_first_some tok _ pre post Hs)). Qed.

Section Workspace.

Context (K : REPLACE_KEYS) (C : Constants) (U : Util) (R : Runtime).

Lemma fileDetails_unchanged (h : Host) (git : option GitAPI) (raw : string)
    (document : TextDocument) (selection : Selection) :
  getAPI h.(gitExtension) = Ok git ->
  Forall (fun t => includes raw t = false)
    [K.(TotalLines); K.(CurrentLine); K.(CurrentColumn); K.(FileSize);
     K.(GitBranch); K.(GitRepoName)] ->
  fileDetails K C R h raw document selection = Ok raw.
Proof.
  intros Hapi H; split_forall.
  unfold fileDetails, total_lines_step, current_line_step, current_column_step,
    file_size_step, git_branch_step, git_repo_name_step.
  cbv zeta; rewrite Hapi; cbn [bind].
  repeat (simpl; match goal with H : includes raw _ = false |- _ => rewrite H end).
  reflexivity.
Qed.

Lemma fill_editor_template_git_error (h : Host) (ed : TextEditor) (raw : string)
    (e : js_error) :
  getAPI h.(gitExtension) = Throw e -> fill_editor_template K C U R h ed raw = Throw e.
Proof.
  intros He; unfold fill_editor_template, fileDetails; cbv zeta; rewrite He; reflexivity.
Qed.

(** The full-dir-name token in a template [pre ++ token ++ post] whose
    leftmost occurrence of the token is the one after [pre]. When
    [getAPI(1)] throws, [details] throws the same error. When the git
    extension is absent or its [getAPI(1)] returns: without a workspace
    folder the template comes back as it is, token included, provided it
    holds none of the tokens replaced after this one; with a workspace
    folder the token becomes [v], the folder name, the separator and the
    path relative to the workspace without its last segment, joined by the
    separator, provided [v] has no [$] and [pre ++ v ++ post] holds none
    of the tokens replaced after this one. *)
Theorem fill_full_dir_name (h : Host) (ed : TextEditor) (pre post : string)
    (Hpre : forall b a, pre ++ K.(FullDirName) ++ post = b ++ K.(FullDirName) ++ a ->
            String.length pre <= String.length b) :
  (forall e, getAPI h.(gitExtension) = Throw e ->
   fill_editor_template K C U R h ed (pre ++ K.(FullDirName) ++ post) = Throw e) /\
  (forall git, getAPI h.(gitExtension) = Ok git ->
   h.(getWorkspaceFolder) ed.(document).(uri) = None ->
   Forall (fun t => includes (pre ++ K.(FullDirName) ++ post) t = false)
     (tokens_after_full_dir K) ->
   fill_editor_template K C U R h ed (pre ++ K.(FullDirName) ++ post)
   = Ok (pre ++ K.(FullDirName) ++ post)) /\
  (forall git wf, getAPI h.(gitExtension) = Ok git ->
   h.(getWorkspaceFolder) ed.(document).(uri) = Some wf ->
   let v := wf.(folder_name) ++ R.(sep) ++
            String.concat R.(sep)
              (removelast (js_split (h.(asRelativePath) ed.(document).(fileName)) R.(sep))) in
   includes v "$" = false ->
   Forall (fun t => includes (pre ++ v ++ post) t = false) (tokens_after_full_dir K) ->
   fill_editor_template K C U R h ed (pre ++ K.(FullDirName) ++ post)
   = Ok (pre ++ v ++ post)).
Proof.
  split; [|split].
  - intros e He; apply fill_editor_template_git_error; exact He.
  - intros git Hapi Hwf Htok; unfold fill_editor_template; cbv zeta; rewrite Hwf.
    unfold tokens_after_full_dir in Htok.
    rewrite (fileDetails_unchanged h git)
      by (exact Hapi || (split_forall; repeat constructor; assumption)).
    cbn [bind]; split_forall; absent_tokens; reflexivity.
  - intros git wf Hapi Hwf v Hv Htok; unfold fill_editor_template; cbv zeta; rewrite Hwf.
    rewrite js_replace_at by (exact Hpre || exact Hv); fold v.
    unfold tokens_after_full_dir in Htok.
    rewrite (fileDetails_unchanged h git)
      by (exact Hapi || (split_forall; repeat constructor; assumption)).
    cbn [bind]; split_forall; absent_tokens; reflexivity.
Qed.

(** The workspace-and-folder token in a template [pre ++ token ++ post]
    whose leftmost occurrence of the token is the one after [pre] and which
    holds none of the tokens replaced before it (full-dir-name, the six
    tokens of [fileDetails], file name, dir name, workspace, workspace
    folder). When [getAPI(1)] throws, [details] throws the same error.
    When the git extension is absent or its [getAPI(1)] returns, the token
    becomes [v]: the workspace name followed by [" - "] and the
    workspace-folder name, without that suffix when the folder name equals
    [EMPTY]; the workspace name falls back to the folder name, and the
    folder name to the no-workspace text (its empty token replaced by
    [EMPTY]) when the document is in no workspace folder; provided [v] has
    no [$] and [pre ++ v ++ post] holds none of the three language tokens
    replaced after it. *)
Theorem fill_workspace_and_folder (h : Host) (ed : TextEditor) (pre post : string)
    (Hpre : forall b a, pre ++ K.(WorkspaceAndFolder) ++ post = b ++ K.(WorkspaceAndFolder) ++ a ->
            String.length pre <= String.length b)
    (Htok : Forall (fun t => includes (pre ++ K.(WorkspaceAndFolder) ++ post) t = false)
              (K.(FullDirName) :: firstn 10 (tokens_after_full_dir K))) :
  let folderName :=
    match h.(getWorkspaceFolder) ed.(document).(uri) with
    | Some wf => wf.(folder_name)
    | None => js_replace (h.(config) LowerDetailsNoWorkspaceFound) K.(Empty) C.(EMPTY)
    end in
  let workspaceName :=
    match h.(workspace_name) with Some n => n | None => folderName end in
  let v := workspaceName ++ (if String.eqb folderName C.(EMPTY) then ""
                             else " - " ++ folderName) in
  (forall e, getAPI h.(gitExtension) = Throw e ->
   fill_editor_template K C U R h ed (pre ++ K.(WorkspaceAndFolder) ++ post) = Throw e) /\
  (forall git, getAPI h.(gitExtension) = Ok git ->
   includes v "$" = false ->
   Forall (fun t => includes (pre ++ v ++ post) t = false)
     [K.(LanguageLowerCase); K.(LanguageTitleCase); K.(LanguageUpperCase)] ->
   fill_editor_template K C U R h ed (pre ++ K.(WorkspaceAndFolder) ++ post)
   = Ok (pre ++ v ++ post)).
Proof.
  intros folderName workspaceName v; split.
  - intros e He; apply fill_editor_template_git_error; exact He.
  - intros git Hapi Hv Hvt.
    cbn [firstn tokens_after_full_dir] in Htok.
    unfold fill_editor_template; cbv zeta.
    unfold v, workspaceName, folderName in *; clear v workspaceName folderName.
    split_forall.
    destruct (getWorkspaceFolder h (uri (document ed))) as [wf|]; [absent_tokens|];
      (rewrite (fileDetails_unchanged h git)
         by (exact Hapi || (repeat constructor; assumption)));
      cbv beta iota delta [bind]; absent_tokens;
      rewrite js_replace_at by (exact Hpre || exact Hv);
      absent_tokens; reflexivity.
Qed.

End Workspace.

(* ================================================================= *)
(** ** Instances of the properties above *)

Lemma git_branch_first_selected_witness :
  git_branch_step spec_keys spec_constants (Some multi_git) "on {git_branch}" = "on feature".
Proof.
  rewrite (git_branch_first_selected spec_keys spec_constants multi_git [old_repo] [dev_repo]
             feature_repo "on {git_branch}" eq_refl
             (Forall_cons _ (eq_refl : old_repo.(ui).(selected) = false) (Forall_nil _))
             eq_refl ltac:(vm_compute; reflexivity)).
  vm_compute; reflexivity.
Defined.

Lemma git_repo_name_second_field_witness :
  git_repo_name_step spec_keys spec_constants (Some multi_git) "{git_repo_name}" = Ok "proj".
Proof.
  rewrite (git_repo_name_second_field spec_keys spec_constants multi_git feature_repo
             {| fetchUrl := Some "git@github.com:u/proj.git" |} []
             "git@github.com:u" "proj.git" "" "{git_repo_name}"
             ltac:(vm_compute; reflexivity) eq_refl eq_refl
             ltac:(vm_compute; reflexivity) ltac:(vm_compute; reflexivity)
             (or_introl eq_refl) ltac:(vm_compute; reflexivity)).
  vm_compute; reflexivity.
Defined.

Lemma git_repo_name_https_witness :
  git_repo_name_step spec_keys spec_constants (Some https_git) "repo: {git_repo_name}"
  = Ok "repo: ".
Proof.
  rewrite (git_repo_name_https spec_keys spec_constants https_git https_repo
             {| fetchUrl := Some "https://github.com/u/proj.git" |} []
             "github.com/u/proj.git" "repo: {git_repo_name}"
             ltac:(vm_compute; reflexivity) eq_refl eq_refl ltac:(vm_compute; reflexivity)).
  vm_compute; reflexivity.
Defined.

Lemma git_repo_name_type_error_witness :
  git_repo_name_step spec_keys spec_constants (Some noremote_git) "{git_repo_name}"
  = Throw TypeError.
Proof.
  apply (proj2 (git_repo_name_type_error spec_keys spec_constants noremote_git
                  (hd old_repo noremote_git.(repositories)) "{git_repo_name}"
                  ltac:(vm_compute; reflexivity) ltac:(vm_compute; reflexivity))).
  left; reflexivity.
Defined.

Lemma activity_large_image_editor_witness :
  sample_run (editing_host false "typescript") 5
    = Ok (payload_of (sample_run (editing_host false "typescript") 5)) /\
  (payload_of (sample_run (editing_host false "typescript") 5)).(Payload.largeImageKey)
    = Some "typescript".
Proof.
  assert (Hrun : sample_run (editing_host false "typescript") 5
                 = Ok (payload_of (sample_run (editing_host false "typescript") 5)))
    by (vm_compute; reflexivity).
  split; [exact Hrun|].
  exact (proj1 (activity_large_image_editor spec_keys spec_constants sample_util posix_runtime
                  (editing_host false "typescript") (sample_editor "typescript")
                  empty_payload _ 5 eq_refl ltac:(discriminate) Hrun)).
Defined.

Lemma fill_full_dir_name_witness :
  fill_editor_template spec_keys spec_constants sample_util posix_runtime
    (with_git_disabled folderless_host) (sample_editor "typescript")
    ("in " ++ spec_keys.(FullDirName) ++ "!") = Throw GitModelNotFound /\
  fill_editor_template spec_keys spec_constants sample_util posix_runtime folderless_host
    (sample_editor "typescript") ("in " ++ spec_keys.(FullDirName) ++ "!")
  = Ok ("in " ++ spec_keys.(FullDirName) ++ "!") /\
  fill_editor_template spec_keys spec_constants sample_util posix_runtime
    (sample_host sample_config (Some (sample_editor "typescript")) false None)
    (sample_editor "typescript") ("in " ++ spec_keys.(FullDirName) ++ "!")
  = Ok ("in " ++ "proj/src" ++ "!").
Proof.
  split; [|split].
  - exact (proj1 (fill_full_dir_name spec_keys spec_constants sample_util posix_runtime
                    (with_git_disabled folderless_host) (sample_editor "typescript") "in " "!"
                    (leftmost_of_split_first "in " spec_keys.(FullDirName) "!" ltac:(vm_compute; reflexivity)))
             GitModelNotFound eq_refl).
  - exact (proj1 (proj2 (fill_full_dir_name spec_keys spec_constants sample_util posix_runtime
                    folderless_host (sample_editor "typescript") "in " "!"
                    (leftmost_of_split_first "in " spec_keys.(FullDirName) "!" ltac:(vm_compute; reflexivity))))
             None eq_refl eq_refl ltac:(repeat constructor; vm_compute; reflexivity)).
  - exact (proj2 (proj2 (fill_full_dir_name spec_keys spec_constants sample_util posix_runtime
                    (sample_host sample_config (Some (sample_editor "typescript")) false None)
                    (sample_editor "typescript") "in " "!"
                    (leftmost_of_split_first "in " spec_keys.(FullDirName) "!" ltac:(vm_compute; reflexivity))))
             None {| folder_name := "proj" |} eq_refl eq_refl ltac:(vm_compute; reflexivity)
             ltac:(repeat constructor; vm_compute; reflexivity)).
Defined.

Lemma fill_workspace_and_folder_witness :
  fill_editor_template spec_keys spec_constants sample_util posix_runtime
    (with_git_disabled folderless_host) (sample_editor "typescript")
    ("[" ++ spec_keys.(WorkspaceAndFolder) ++ "]") = Throw GitModelNotFound /\
  fill_editor_template spec_keys spec_constants sample_util posix_runtime folderless_host
    (sample_editor "typescript") ("[" ++ spec_keys.(WorkspaceAndFolder) ++ "]")
  = Ok ("[" ++ "No workspace. - No workspace." ++ "]").
Proof.
  split.
  - exact (proj1 (fill_workspace_and_folder spec_keys spec_constants sample_util posix_runtime
                    (with_git_disabled folderless_host) (sample_editor "typescript") "[" "]"
                    (leftmost_of_split_first "[" spec_keys.(WorkspaceAndFolder) "]" ltac:(vm_compute; reflexivity))
                    ltac:(repeat constructor; vm_compute; reflexivity))
             GitModelNotFound eq_refl).
  - exact (proj2 (fill_workspace_and_folder spec_keys spec_constants sample_util posix_runtime
                    folderless_host (sample_editor "typescript") "[" "]"
                    (leftmost_of_split_first "[" spec_keys.(WorkspaceAndFolder) "]" ltac:(vm_compute; reflexivity))
                    ltac:(repeat constructor; vm_compute; reflexivity))
             None eq_refl ltac:(vm_compute; reflexivity)
             ltac:(repeat constructor; vm_compute; reflexivity)).
Defined.
